(** * araMaps: the DXF to GeoJSON converter ([dxf_to_geojson.py])

    A shallow embedding of the converter's core and the properties its
    specification states about it.

    Numbers.  The source computes on Python floats.  Here a coordinate is a
    real number ([R]): [math.cos], [math.sin] and [math.pi] are [cos], [sin]
    and [PI], the comparisons are those of the reals, and a division raises
    on a zero divisor as Python's does.  Rounding error, infinities and NaN
    are outside this model.

    Collaborators.  [ezdxf] supplies the entities and [pyproj] the
    transformation; both are taken as given: an entity is a record of the
    attributes the converter reads, a transformer is a function on
    coordinates, and the builtin [round] is a parameter. *)

From Stdlib Require Import Reals Lra Ascii.
From stdpp Require Import base option list strings gmap pretty.

Local Open Scope Z_scope.

(** * The model *)

(** ** Reals as Python floats: comparison and division *)

Definition Rltb (a b : R) : bool := if Rlt_dec a b then true else false.
Definition Rleb (a b : R) : bool := if Rle_dec a b then true else false.

(** ** [in_utm_range] *)

(** [return 150000 < x < 850000 and 3100000 < y < 4300000] *)
Definition in_utm_range (x y : R) : bool :=
  (Rltb 150000 x && Rltb x 850000) && (Rltb 3100000 y && Rltb y 4300000).

(** Python's [a / n] for a float [a] and an int [n]: [ZeroDivisionError]
    (here [None]) when [n] is zero. *)
Definition fdiv (a : R) (n : Z) : option R :=
  if decide (n = 0) then None else Some (a / IZR n)%R.

(** [math.radians] *)
Definition radians (deg : R) : R := (deg * (PI / 180))%R.

(** [range(n)]: empty when [n <= 0]. *)
Definition range (n : Z) : list Z := seqZ 0 n.

(** [for a in l: s = body(s, a)], where the body may raise. *)
Fixpoint for_in {A S : Type} (l : list A) (body : S -> A -> option S) (s : S)
  : option S :=
  match l with
  | [] => Some s
  | a :: l' => s' ← body s a; for_in l' body s'
  end.

(** ** The collaborators' data *)

(** [ezdxf.math.Vec3] *)
Record Vec3 := mkVec3 { vx : R; vy : R; vz : R }.

(** The object coordinate system of an entity, [entity.ocs()]. *)
Record OCS := { ocs_to_wcs : Vec3 -> Vec3 }.

(** The attribute namespace [entity.dxf]; [None] is an attribute whose read
    raises. *)
Record DXFNamespace := {
  dxf_layer : option string;
  dxf_color : option Z;
  dxf_start : option Vec3;
  dxf_end : option Vec3;
  dxf_center : option Vec3;
  dxf_radius : option R;
  dxf_start_angle : option R;
  dxf_end_angle : option R;
  dxf_location : option Vec3;
  dxf_insert : option Vec3;
  dxf_align_point : option Vec3;
  dxf_halign : option Z;
  dxf_valign : option Z;
  dxf_text : option string;
  dxf_name : option string;
  dxf_defpoint : option Vec3;
  dxf_defpoint2 : option Vec3
}.

(** A vertex of a POLYLINE: [v.dxf.location]. *)
Record Vertex := { vertex_location : option Vec3 }.

Record Entity := {
  dxftype : string;
  dxf : DXFNamespace;
  ocs : OCS;
  get_points : option (list (R * R));   (* LWPOLYLINE: get_points(format="xy") *)
  closed : option bool;                 (* LWPOLYLINE: entity.closed *)
  vertices : option (list Vertex);      (* POLYLINE: entity.vertices *)
  is_closed : option bool;              (* POLYLINE: entity.is_closed *)
  text : option string                  (* MTEXT: entity.text *)
}.

(** [pyproj.Transformer]: [transformer.transform(x, y)] *)
Record Transformer := { transform : R -> R -> R * R }.

(** ** The converter's output *)

(** A position [[lng, lat]]. *)
Definition LngLat : Type := R * R.

(** The [coordinates] member of a geometry: a position for a Point, a list
    of positions for a LineString, a list of rings for a Polygon. *)
Inductive Coordinates :=
| Position (c : LngLat)
| Positions (coords : list LngLat)
| Rings (rings : list (list LngLat)).

Record Geometry := { g_type : string; g_coordinates : Coordinates }.

Record Feature := {
  f_type : string;
  geometry : Geometry;
  properties : gmap string string
}.

(** [make_feature] *)
Definition make_feature (geom_type : string) (coordinates : Coordinates)
    (props : gmap string string) : Feature :=
  {| f_type := "Feature";
     geometry := {| g_type := geom_type; g_coordinates := coordinates |};
     properties := props |}.

(** ** The loop's state and control *)

(** The three locals of [convert_dxf] that the loop updates. *)
Record State := {
  features : list Feature;
  skipped : gmap string Z;
  filtered : Z
}.

(** How a statement ends: normally, by [continue], or by an exception. *)
Inductive Signal (A : Type) :=
| Normal (a : A)
| Continue
| Raise.
Arguments Normal {A} a.
Arguments Continue {A}.
Arguments Raise {A}.

Definition Exec (A : Type) : Type := State -> State * Signal A.

#[global] Instance Exec_ret : MRet Exec := fun A a s => (s, Normal a).
#[global] Instance Exec_bind : MBind Exec := fun A B k m s =>
  match m s with
  | (s', Normal a) => k a s'
  | (s', Continue) => (s', Continue)
  | (s', Raise) => (s', Raise)
  end.

Definition continue {A} : Exec A := fun s => (s, Continue).

(** A read that raises when the value is absent. *)
Definition attr {A} (o : option A) : Exec A := fun s =>
  match o with
  | Some a => (s, Normal a)
  | None => (s, Raise)
  end.

(** [try: body except Exception: handler] *)
Definition try_except {A} (body handler : Exec A) : Exec A := fun s =>
  match body s with
  | (s', Raise) => handler s'
  | r => r
  end.

(** [for a in l: body(a)]: [continue] goes on with the next element, an
    exception leaves the loop. *)
Fixpoint for_each {A} (l : list A) (body : A -> Exec unit) : Exec unit :=
  match l with
  | [] => mret tt
  | a :: l' => fun s =>
      match body a s with
      | (s', Raise) => (s', Raise)
      | (s', _) => for_each l' body s'
      end
  end.

(** [filtered += 1] *)
Definition filtered_incr : Exec unit := fun s =>
  ({| features := features s; skipped := skipped s;
      filtered := filtered s + 1 |}, Normal tt).

(** [skipped[dxftype] = skipped.get(dxftype, 0) + 1] *)
Definition skipped_incr (k : string) : Exec unit := fun s =>
  ({| features := features s;
      skipped := <[k := default 0 (skipped s !! k) + 1]> (skipped s);
      filtered := filtered s |}, Normal tt).

(** [features.append(f)] *)
Definition features_append (f : Feature) : Exec unit := fun s =>
  ({| features := features s ++ [f]; skipped := skipped s;
      filtered := filtered s |}, Normal tt).

(** ** The converter *)

Section Converter.

(** The builtin [round(x, ndigits)] and [pyproj]'s
    [Transformer.from_crs(src, dst, always_xy)]. *)
Variable round : R -> Z -> R.
Variable from_crs : string -> string -> bool -> Transformer.

(** [make_transformer] *)
Definition make_transformer (source_epsg : Z) : Transformer :=
  from_crs ("EPSG:" +:+ pretty source_epsg) "EPSG:4326" true.

(** [reproject] *)
Definition reproject (transformer : Transformer) (x y : R) : LngLat :=
  let '(lng, lat) := transform transformer x y in
  (round lng 7, round lat 7).

(** [circle_to_polygon]; the source's default is [segments=64]. *)
Definition circle_to_polygon (cx cy radius : R) (transformer : Transformer)
    (segments : Z) : option (list LngLat) :=
  for_in (range (segments + 1)) (fun coords i =>
    angle ← fdiv (2 * PI * IZR i) segments;
    let x := (cx + radius * cos angle)%R in
    let y := (cy + radius * sin angle)%R in
    Some (coords ++ [reproject transformer x y])) [].

(** The first lines of [arc_to_linestring]: the start and the end angle in
    radians, the end moved one turn up when it is not above the start. *)
Definition arc_angles (start_angle end_angle : R) : R * R :=
  let sa := radians start_angle in
  let ea := radians end_angle in
  let ea := if Rleb ea sa then (ea + 2 * PI)%R else ea in
  (sa, ea).

(** [arc_to_linestring]; the source's default is [segments=32]. *)
Definition arc_to_linestring (cx cy radius start_angle end_angle : R)
    (transformer : Transformer) (segments : Z) : option (list LngLat) :=
  let '(sa, ea) := arc_angles start_angle end_angle in
  for_in (range (segments + 1)) (fun coords i =>
    step ← fdiv ((ea - sa) * IZR i) segments;
    let angle := (sa + step)%R in
    let x := (cx + radius * cos angle)%R in
    let y := (cy + radius * sin angle)%R in
    Some (coords ++ [reproject transformer x y])) [].

(** [entity_color]: the colour index as a string, unless it is unset, zero or
    256 (BYLAYER). *)
Definition entity_color (entity : Entity) : option string :=
  match dxf_color (dxf entity) with
  | Some c => if negb (c =? 0) && negb (c =? 256) then Some (pretty c) else None
  | None => None
  end.

(** [to_wcs] *)
Definition to_wcs (entity : Entity) (point : Vec3) : R * R :=
  let wcs := ocs_to_wcs (ocs entity) point in
  (vx wcs, vy wcs).

Definition plausible (p : R * R) : bool := in_utm_range p.1 p.2.

(** The branches of the loop of [convert_dxf], one per entity type. *)

Definition convert_line (transformer : Transformer) (entity : Entity)
    (props : gmap string string) : Exec unit :=
  start ← attr (dxf_start (dxf entity));
  let '(sx, sy) := to_wcs entity start in
  end_ ← attr (dxf_end (dxf entity));
  let '(ex, ey) := to_wcs entity end_ in
  if negb (in_utm_range sx sy) || negb (in_utm_range ex ey) then
    filtered_incr;; continue
  else
    let coords := [reproject transformer sx sy; reproject transformer ex ey] in
    features_append (make_feature "LineString" (Positions coords) props).

(** The common end of the two polyline branches, from the points in world
    coordinates on. *)
Definition convert_points (transformer : Transformer) (points : list (R * R))
    (is_closed : option bool) (props : gmap string string) : Exec unit :=
  let points := List.filter plausible points in
  if (length points <? 2)%nat then
    filtered_incr;; continue
  else
    let coords := map (fun p => reproject transformer p.1 p.2) points in
    c ← attr is_closed;
    if c : bool then
      first ← attr (head coords);
      let coords := coords ++ [first] in
      features_append (make_feature "Polygon" (Rings [coords]) props)
    else
      features_append (make_feature "LineString" (Positions coords) props).

Definition convert_lwpolyline (transformer : Transformer) (entity : Entity)
    (props : gmap string string) : Exec unit :=
  raw_points ← attr (get_points entity);
  if (length raw_points <? 2)%nat then continue
  else
    let points :=
      map (fun p => to_wcs entity (mkVec3 p.1 p.2 0)) raw_points in
    convert_points transformer points (closed entity) props.

Definition convert_polyline (transformer : Transformer) (entity : Entity)
    (props : gmap string string) : Exec unit :=
  vs ← attr (vertices entity);
  points ← attr (mapM (fun v => to_wcs entity <$> vertex_location v) vs);
  if (length points <? 2)%nat then continue
  else convert_points transformer points (is_closed entity) props.

Definition convert_circle (transformer : Transformer) (entity : Entity)
    (props : gmap string string) : Exec unit :=
  center ← attr (dxf_center (dxf entity));
  let '(cx, cy) := to_wcs entity center in
  if negb (in_utm_range cx cy) then filtered_incr;; continue
  else
    radius ← attr (dxf_radius (dxf entity));
    coords ← attr (circle_to_polygon cx cy radius transformer 64);
    features_append (make_feature "Polygon" (Rings [coords]) props).

Definition convert_arc (transformer : Transformer) (entity : Entity)
    (props : gmap string string) : Exec unit :=
  center ← attr (dxf_center (dxf entity));
  let '(cx, cy) := to_wcs entity center in
  if negb (in_utm_range cx cy) then filtered_incr;; continue
  else
    radius ← attr (dxf_radius (dxf entity));
    start_angle ← attr (dxf_start_angle (dxf entity));
    end_angle ← attr (dxf_end_angle (dxf entity));
    coords ← attr (arc_to_linestring cx cy radius start_angle end_angle
                     transformer 32);
    if (2 <=? length coords)%nat then
      features_append (make_feature "LineString" (Positions coords) props)
    else mret tt.

Definition convert_point (transformer : Transformer) (entity : Entity)
    (props : gmap string string) : Exec unit :=
  location ← attr (dxf_location (dxf entity));
  let '(px, py) := to_wcs entity location in
  if negb (in_utm_range px py) then filtered_incr;; continue
  else
    let coord := reproject transformer px py in
    features_append (make_feature "Point" (Position coord) props).

Definition convert_text (transformer : Transformer) (entity : Entity)
    (props : gmap string string) : Exec unit :=
  let halign := default 0 (dxf_halign (dxf entity)) in
  let valign := default 0 (dxf_valign (dxf entity)) in
  pt ← (if negb (halign =? 0) || negb (valign =? 0) then
          insert ← attr (dxf_insert (dxf entity));
          mret (default insert (dxf_align_point (dxf entity)))
        else attr (dxf_insert (dxf entity)));
  let '(tx, ty) := to_wcs entity pt in
  if negb (in_utm_range tx ty) then filtered_incr;; continue
  else
    let coord := reproject transformer tx ty in
    let props := <["text" := default "" (dxf_text (dxf entity))]> props in
    features_append (make_feature "Point" (Position coord) props).

Definition convert_mtext (transformer : Transformer) (entity : Entity)
    (props : gmap string string) : Exec unit :=
  insert ← attr (dxf_insert (dxf entity));
  let '(mx, my) := to_wcs entity insert in
  if negb (in_utm_range mx my) then filtered_incr;; continue
  else
    let coord := reproject transformer mx my in
    let props := <["text" := default "" (text entity)]> props in
    features_append (make_feature "Point" (Position coord) props).

Definition convert_insert (transformer : Transformer) (entity : Entity)
    (props : gmap string string) : Exec unit :=
  insert ← attr (dxf_insert (dxf entity));
  let '(ix, iy) := to_wcs entity insert in
  if negb (in_utm_range ix iy) then filtered_incr;; continue
  else
    let coord := reproject transformer ix iy in
    let props := match dxf_name (dxf entity) with
                 | Some name => <["block" := name]> props
                 | None => props
                 end in
    features_append (make_feature "Point" (Position coord) props).

(** The body of the inner [try] of the DIMENSION branch. *)
Definition dimension_body (transformer : Transformer) (entity : Entity)
    (props : gmap string string) : Exec unit :=
  defpoint ← attr (dxf_defpoint (dxf entity));
  let '(d1x, d1y) := to_wcs entity defpoint in
  defpoint2 ← attr (dxf_defpoint2 (dxf entity));
  let '(d2x, d2y) := to_wcs entity defpoint2 in
  if negb (in_utm_range d1x d1y) || negb (in_utm_range d2x d2y) then
    filtered_incr;; continue
  else
    let coords :=
      [reproject transformer d1x d1y; reproject transformer d2x d2y] in
    features_append (make_feature "LineString" (Positions coords) props).

Definition convert_dimension (transformer : Transformer) (entity : Entity)
    (props : gmap string string) : Exec unit :=
  try_except (dimension_body transformer entity props) (mret tt).

(** The body of the outer [try]: the dispatch on [dxftype]. *)
Definition interpret (transformer : Transformer) (entity : Entity)
    (props : gmap string string) : Exec unit :=
  let dxftype := dxftype entity in
  if String.eqb dxftype "LINE" then convert_line transformer entity props
  else if String.eqb dxftype "LWPOLYLINE" then
    convert_lwpolyline transformer entity props
  else if String.eqb dxftype "POLYLINE" then
    convert_polyline transformer entity props
  else if String.eqb dxftype "CIRCLE" then
    convert_circle transformer entity props
  else if String.eqb dxftype "ARC" then convert_arc transformer entity props
  else if String.eqb dxftype "POINT" then
    convert_point transformer entity props
  else if String.eqb dxftype "TEXT" then convert_text transformer entity props
  else if String.eqb dxftype "MTEXT" then
    convert_mtext transformer entity props
  else if String.eqb dxftype "INSERT" then
    convert_insert transformer entity props
  else if String.eqb dxftype "DIMENSION" then
    convert_dimension transformer entity props
  else skipped_incr dxftype.

(** The properties every feature of the entity starts from. *)
Definition entity_props (entity : Entity) : gmap string string :=
  let layer := default "0" (dxf_layer (dxf entity)) in
  let props := {[ "layer" := layer; "type" := dxftype entity ]} in
  match entity_color entity with
  | Some color => <["color" := color]> props
  | None => props
  end.

(** The body of the loop over the entities. *)
Definition convert_entity (transformer : Transformer) (entity : Entity)
  : Exec unit :=
  let props := entity_props entity in
  try_except (interpret transformer entity props)
             (skipped_incr (dxftype entity)).

Definition initial : State := {| features := []; skipped := ∅; filtered := 0 |}.

(** [convert_dxf], from the modelspace [msp] of the document on.  [None] is
    an exception leaving the function. *)
Definition convert_dxf (msp : list Entity) (source_epsg : Z)
  : option (list Feature * gmap string Z * Z) :=
  let transformer := make_transformer source_epsg in
  match for_each msp (convert_entity transformer) initial with
  | (_, Raise) => None
  | (s, _) => Some (features s, skipped s, filtered s)
  end.

End Converter.

Arguments in_utm_range : simpl never.
Arguments circle_to_polygon : simpl never.
Arguments arc_to_linestring : simpl never.

(** * The vocabulary of the properties *)

(** The point of a circle's ring at index [i] of [segments]. *)
Definition circle_sample (round : R -> Z -> R) (cx cy radius : R)
    (t : Transformer) (segments i : Z) : LngLat :=
  let angle := (2 * PI * IZR i / IZR segments)%R in
  reproject round t (cx + radius * cos angle) (cy + radius * sin angle).

(** The point of an arc's line at index [i] of [segments]. *)
Definition arc_sample (round : R -> Z -> R)
    (cx cy radius start_angle end_angle : R)
    (t : Transformer) (segments i : Z) : LngLat :=
  let '(sa, ea) := arc_angles start_angle end_angle in
  let angle := (sa + (ea - sa) * IZR i / IZR segments)%R in
  reproject round t (cx + radius * cos angle) (cy + radius * sin angle).


(** The three updates of the state. *)
Definition bump_filtered (s : State) : State :=
  {| features := features s; skipped := skipped s;
     filtered := filtered s + 1 |}.

Definition bump_skipped (k : string) (s : State) : State :=
  {| features := features s;
     skipped := <[k := default 0 (skipped s !! k) + 1]> (skipped s);
     filtered := filtered s |}.

Definition push_feature (f : Feature) (s : State) : State :=
  {| features := features s ++ [f]; skipped := skipped s;
     filtered := filtered s |}.

(** The shapes of the features the converter builds. *)
Inductive emitted : Feature -> Prop :=
| emitted_point c props :
    emitted (make_feature "Point" (Position c) props)
| emitted_line coords props :
    (2 <= length coords)%nat ->
    emitted (make_feature "LineString" (Positions coords) props)
| emitted_polygon ring first props :
    (3 <= length ring)%nat ->
    head ring = Some first -> last ring = Some first ->
    emitted (make_feature "Polygon" (Rings [ring]) props).

(** The ways the dispatch on one entity can end. *)
Inductive interp_result (k : string) (s : State)
  : State * Signal unit -> Prop :=
| ir_emit f : emitted f -> interp_result k s (push_feature f s, Normal tt)
| ir_filtered : interp_result k s (bump_filtered s, Continue)
| ir_continue : interp_result k s (s, Continue)
| ir_pass : interp_result k s (s, Normal tt)
| ir_raise : interp_result k s (s, Raise)
| ir_unsupported : interp_result k s (bump_skipped k s, Normal tt).

(** The ways the loop's body can end on one entity: never by an exception. *)
Inductive entity_result (k : string) (s : State)
  : State * Signal unit -> Prop :=
| er_emit f : emitted f -> entity_result k s (push_feature f s, Normal tt)
| er_filtered : entity_result k s (bump_filtered s, Continue)
| er_dropped sig : sig <> Raise -> entity_result k s (s, sig)
| er_skipped : entity_result k s (bump_skipped k s, Normal tt).

(** ** Defining points *)

Definition is_polyline (entity : Entity) : bool :=
  String.eqb (dxftype entity) "LWPOLYLINE"
  || String.eqb (dxftype entity) "POLYLINE".

(** The flag a polyline branch reads to choose between ring and line. *)
Definition closed_flag (entity : Entity) : option bool :=
  if String.eqb (dxftype entity) "LWPOLYLINE" then closed entity
  else is_closed entity.

(** The defining points of a supported entity, in world coordinates, as its
    branch of the loop reads them; [None] when the type is not supported or
    a read raises. *)
Definition defining_points (entity : Entity) : option (list (R * R)) :=
  let k := dxftype entity in
  let d := dxf entity in
  if String.eqb k "LINE" then
    start ← dxf_start d; end_ ← dxf_end d;
    Some [to_wcs entity start; to_wcs entity end_]
  else if String.eqb k "LWPOLYLINE" then
    raw_points ← get_points entity;
    Some (map (fun p => to_wcs entity (mkVec3 p.1 p.2 0)) raw_points)
  else if String.eqb k "POLYLINE" then
    vs ← vertices entity;
    mapM (fun v => to_wcs entity <$> vertex_location v) vs
  else if String.eqb k "CIRCLE" || String.eqb k "ARC" then
    center ← dxf_center d; Some [to_wcs entity center]
  else if String.eqb k "POINT" then
    location ← dxf_location d; Some [to_wcs entity location]
  else if String.eqb k "TEXT" then
    insert ← dxf_insert d;
    let pt := if negb (default 0 (dxf_halign d) =? 0)
                 || negb (default 0 (dxf_valign d) =? 0)
              then default insert (dxf_align_point d) else insert in
    Some [to_wcs entity pt]
  else if String.eqb k "MTEXT" || String.eqb k "INSERT" then
    insert ← dxf_insert d; Some [to_wcs entity insert]
  else if String.eqb k "DIMENSION" then
    defpoint ← dxf_defpoint d; defpoint2 ← dxf_defpoint2 d;
    Some [to_wcs entity defpoint; to_wcs entity defpoint2]
  else None.

(** The feature a polyline gives from its plausible points [kept]. *)
Definition polyline_feature (round : R -> Z -> R) (t : Transformer)
    (kept : list (R * R)) (is_closed : bool) (props : gmap string string)
  : Feature :=
  let coords := map (fun p => reproject round t p.1 p.2) kept in
  if is_closed then
    make_feature "Polygon" (Rings [coords ++ take 1 coords]) props
  else make_feature "LineString" (Positions coords) props.

(** ** Sample inputs *)

Module Samples.

Definition no_attrs : DXFNamespace :=
  {| dxf_layer := None; dxf_color := None; dxf_start := None; dxf_end := None;
     dxf_center := None; dxf_radius := None; dxf_start_angle := None;
     dxf_end_angle := None; dxf_location := None; dxf_insert := None;
     dxf_align_point := None; dxf_halign := None; dxf_valign := None;
     dxf_text := None; dxf_name := None; dxf_defpoint := None;
     dxf_defpoint2 := None |}.

(** The default extrusion: object coordinates are world coordinates. *)
Definition world : OCS := {| ocs_to_wcs := fun p => p |}.

Definition bare (kind : string) (d : DXFNamespace) : Entity :=
  {| dxftype := kind; dxf := d; ocs := world; get_points := None;
     closed := None; vertices := None; is_closed := None; text := None |}.

(** Stand-ins for the collaborators: no rounding, no reprojection. *)
Definition exact_round (x : R) (ndigits : Z) : R := x.
Definition plain_crs (src dst : string) (always_xy : bool) : Transformer :=
  {| transform := fun x y => (x, y) |}.

Definition lwpolyline (points : list (R * R)) (c : bool) : Entity :=
  {| dxftype := "LWPOLYLINE"; dxf := no_attrs; ocs := world;
     get_points := Some points; closed := Some c; vertices := None;
     is_closed := None; text := None |}.

(** An open polyline of three vertices, the last one at the local origin. *)
Definition stray_vertex : Entity :=
  lwpolyline [(300000, 3600000); (300100, 3600100); (10, 10)]%R false.



(** A line with its end at the local origin. *)
Definition stray_line : Entity :=
  bare "LINE"
    {| dxf_layer := Some "walls"; dxf_color := Some 3;
       dxf_start := Some (mkVec3 300000 3600000 0);
       dxf_end := Some (mkVec3 10 10 0);
       dxf_center := None; dxf_radius := None; dxf_start_angle := None;
       dxf_end_angle := None; dxf_location := None; dxf_insert := None;
       dxf_align_point := None; dxf_halign := None; dxf_valign := None;
       dxf_text := None; dxf_name := None; dxf_defpoint := None;
       dxf_defpoint2 := None |}.

(** A line without its start point. *)
Definition broken_line : Entity := bare "LINE" no_attrs.

(** A dimension without its definition points. *)
Definition broken_dimension : Entity := bare "DIMENSION" no_attrs.

(** A point at the local origin, and an entity of a type the converter does
    not know. *)
Definition origin_point : Entity :=
  bare "POINT"
    {| dxf_layer := None; dxf_color := None; dxf_start := None;
       dxf_end := None; dxf_center := None; dxf_radius := None;
       dxf_start_angle := None; dxf_end_angle := None;
       dxf_location := Some (mkVec3 10 10 0); dxf_insert := None;
       dxf_align_point := None; dxf_halign := None; dxf_valign := None;
       dxf_text := None; dxf_name := None; dxf_defpoint := None;
       dxf_defpoint2 := None |}.

Definition hatch : Entity := bare "HATCH" no_attrs.

(** An arc from 270 to 90 degrees around a plausible centre. *)
Definition arc_270_90 : Entity :=
  bare "ARC"
    {| dxf_layer := None; dxf_color := None; dxf_start := None;
       dxf_end := None;
       dxf_center := Some (mkVec3 400000 3700000 0);
       dxf_radius := Some 10%R; dxf_start_angle := Some 270%R;
       dxf_end_angle := Some 90%R; dxf_location := None; dxf_insert := None;
       dxf_align_point := None; dxf_halign := None; dxf_valign := None;
       dxf_text := None; dxf_name := None; dxf_defpoint := None;
       dxf_defpoint2 := None |}.

End Samples.

(** * Further vocabulary *)


(** What one entity does to the state of the loop. *)
Inductive Effect :=
| EmitFeature (f : Feature)
| CountFiltered
| CountSkipped (k : string)
| NoEffect.

Definition apply_effect (eff : Effect) (s : State) : State :=
  match eff with
  | EmitFeature f => push_feature f s
  | CountFiltered => bump_filtered s
  | CountSkipped k => bump_skipped k s
  | NoEffect => s
  end.

(** The geometry type of the feature an entity can give, by its type. *)
Definition geometry_type_of (entity : Entity) : option string :=
  let k := dxftype entity in
  if String.eqb k "LINE" then Some "LineString"
  else if is_polyline entity then
    (fun c : bool => if c then "Polygon" else "LineString")
      <$> closed_flag entity
  else if String.eqb k "CIRCLE" then Some "Polygon"
  else if String.eqb k "ARC" then Some "LineString"
  else if String.eqb k "POINT" || String.eqb k "TEXT"
          || String.eqb k "MTEXT" || String.eqb k "INSERT" then Some "Point"
  else if String.eqb k "DIMENSION" then Some "LineString"
  else None.

(** The [text] and the [block] property of the feature of an entity. *)
Definition text_of (entity : Entity) : option string :=
  if String.eqb (dxftype entity) "TEXT" then
    Some (default "" (dxf_text (dxf entity)))
  else if String.eqb (dxftype entity) "MTEXT" then
    Some (default "" (text entity))
  else None.

Definition block_of (entity : Entity) : option string :=
  if String.eqb (dxftype entity) "INSERT" then dxf_name (dxf entity)
  else None.

(** The properties of the feature of an entity, key by key. *)
Definition props_of (entity : Entity) (props : gmap string string) : Prop :=
  forall key : string,
    props !! key =
    if String.eqb key "layer" then
      Some (default "0" (dxf_layer (dxf entity)))
    else if String.eqb key "type" then Some (dxftype entity)
    else if String.eqb key "color" then entity_color entity
    else if String.eqb key "text" then text_of entity
    else if String.eqb key "block" then block_of entity
    else None.

(** A feature that comes from the entity. *)
Definition feature_of (entity : Entity) (f : Feature) : Prop :=
  f_type f = "Feature" /\
  geometry_type_of entity = Some (g_type (geometry f)) /\
  props_of entity (properties f).

Definition effect_of (entity : Entity) (eff : Effect) : Prop :=
  match eff with
  | EmitFeature f => feature_of entity f
  | CountSkipped k => k = dxftype entity
  | CountFiltered | NoEffect => True
  end.

(** [skipped.get(k, 0)] *)
Definition skipped_count (sk : gmap string Z) (k : string) : Z :=
  default 0 (sk !! k).

(** The sum of all the counts of [skipped]. *)
Definition skipped_total (sk : gmap string Z) : Z :=
  map_fold (fun _ c acc => c + acc) 0 sk.

(** The number of entities of type [k]. *)
Definition count_type (k : string) (msp : list Entity) : nat :=
  length (List.filter (fun e => String.eqb (dxftype e) k) msp).

(** The entities the plausibility check removes: the defining points can be
    read and, for a polyline, there are at least 2 of them and fewer than 2
    are plausible; for another entity, one of them is not plausible. *)
Definition should_filter (entity : Entity) : bool :=
  match defining_points entity with
  | Some points =>
      if is_polyline entity then
        (2 <=? length points)%nat
        && (length (List.filter plausible points) <? 2)%nat
      else existsb (fun p => negb (plausible p)) points
  | None => false
  end.

(** The state after the loop over [msp], started in [s]. *)
Definition run_batch (round : R -> Z -> R) (t : Transformer)
    (msp : list Entity) (s : State) : State :=
  (for_each msp (convert_entity round t) s).1.

(** The entity types the loop of [convert_dxf] has a branch for. *)
Definition supported_types : list string :=
  ["LINE"; "LWPOLYLINE"; "POLYLINE"; "CIRCLE"; "ARC"; "POINT"; "TEXT";
   "MTEXT"; "INSERT"; "DIMENSION"].

(** * The server ([serve.py]) *)

(** ** [compute_bounds] *)

(** [min(l)] and [max(l)]; they raise on an empty list. *)
Definition py_min (l : list R) : option R :=
  match l with
  | [] => None
  | x :: l' => Some (fold_left Rmin l' x)
  end.

Definition py_max (l : list R) : option R :=
  match l with
  | [] => None
  | x :: l' => Some (fold_left Rmax l' x)
  end.

(** [for c in coords: lngs.append(c[0]); lats.append(c[1])] *)
Definition append_positions (coords : list LngLat) (acc : list R * list R)
  : list R * list R :=
  fold_left (fun '(lngs, lats) c => (lngs ++ [c.1], lats ++ [c.2])) coords acc.

(** One round of the first loop of [compute_bounds]: the longitudes and the
    latitudes of the positions of one feature are appended.  The geometry is
    read according to its [type]; coordinates of another shape make the
    function raise (at once or in what follows), except an empty list, which
    is read as no position at all.  A geometry of another type is passed
    over. *)
Definition read_feature (acc : list R * list R) (feat : Feature)
  : option (list R * list R) :=
  let '(lngs, lats) := acc in
  let geom := geometry feat in
  if String.eqb (g_type geom) "Point" then
    match g_coordinates geom with
    | Position c => Some (lngs ++ [c.1], lats ++ [c.2])
    | _ => None
    end
  else if String.eqb (g_type geom) "LineString" then
    match g_coordinates geom with
    | Positions coords => Some (append_positions coords (lngs, lats))
    | Rings [] => Some (lngs, lats)
    | _ => None
    end
  else if String.eqb (g_type geom) "Polygon" then
    match g_coordinates geom with
    | Rings rings =>
        Some (fold_left (fun acc ring => append_positions ring acc)
                        rings (lngs, lats))
    | Positions [] => Some (lngs, lats)
    | _ => None
    end
  else Some (lngs, lats).

Arguments read_feature : simpl never.

Definition lnglat_lists (features : list Feature)
  : option (list R * list R) :=
  for_in features read_feature ([], []).

(** [compute_bounds]: [Some None] is the result [(None, None)], [None] an
    exception; the bounds are [(min lng, min lat, max lng, max lat)]. *)
Definition compute_bounds (features : list Feature)
  : option (option ((R * R * R * R) * (R * R))) :=
  '(lngs, lats) ← lnglat_lists features;
  match lngs with
  | [] => Some None
  | _ =>
      min_lng ← py_min lngs; min_lat ← py_min lats;
      max_lng ← py_max lngs; max_lat ← py_max lats;
      let center := ((min_lng + max_lng) / 2, (min_lat + max_lat) / 2)%R in
      Some (Some ((min_lng, min_lat, max_lng, max_lat), center))
  end.

(** The positions of the coordinates of a geometry. *)
Definition positions (c : Coordinates) : list LngLat :=
  match c with
  | Position p => [p]
  | Positions coords => coords
  | Rings rings => concat rings
  end.

(** The types of geometry [compute_bounds] reads. *)
Definition known_geometry (f : Feature) : bool :=
  String.eqb (g_type (geometry f)) "Point"
  || String.eqb (g_type (geometry f)) "LineString"
  || String.eqb (g_type (geometry f)) "Polygon".

(** The positions [compute_bounds] takes from a feature. *)
Definition read_positions (f : Feature) : list LngLat :=
  if known_geometry f then positions (g_coordinates (geometry f)) else [].



(** ** [slugify] *)

(** A character of the class [[a-z0-9]]. *)
Definition is_slug_char (c : ascii) : bool :=
  let n := nat_of_ascii c in
  ((97 <=? n) && (n <=? 122) || (48 <=? n) && (n <=? 57))%nat.

Definition is_dash (c : ascii) : bool := Ascii.eqb c "-".

(** [re.sub(r'[^a-z0-9]+', '-', s)]: every maximal run of characters
    outside [[a-z0-9]] becomes one ["-"].  [in_run] tells that the
    characters just read belong to a run whose ["-"] is written already.
    A string is its UTF-8 bytes here: a character outside ASCII is a run of
    bytes outside [[a-z0-9]], so the result is that of the substitution on
    the characters. *)
Fixpoint sub_runs (in_run : bool) (s : string) : string :=
  match s with
  | EmptyString => EmptyString
  | String c s' =>
      if is_slug_char c then String c (sub_runs false s')
      else if in_run then sub_runs true s'
      else String "-" (sub_runs true s')
  end.

Definition re_sub_non_alnum (s : string) : string := sub_runs false s.

(** [s.lstrip('-')], [s.rstrip('-')] and [s.strip('-')] *)
Fixpoint lstrip_dash (s : string) : string :=
  match s with
  | EmptyString => EmptyString
  | String c s' => if is_dash c then lstrip_dash s' else s
  end.

Fixpoint rstrip_dash (s : string) : string :=
  match s with
  | EmptyString => EmptyString
  | String c s' =>
      match rstrip_dash s' with
      | EmptyString => if is_dash c then EmptyString else String c EmptyString
      | r => String c r
      end
  end.

Definition strip_dash (s : string) : string := rstrip_dash (lstrip_dash s).

(** [slugify]; [stem] is [Path(name).stem] and [lower] is [str.lower]. *)
Definition slugify (stem lower : string -> string) (name : string) : string :=
  let name := lower (stem name) in
  let name := re_sub_non_alnum name in
  strip_dash name.

(** The words of a string: its maximal runs of characters of [[a-z0-9]]. *)
Fixpoint alnum_words (s : string) : list string :=
  match s with
  | EmptyString => []
  | String c s' =>
      if is_slug_char c then
        match s' with
        | String c' _ =>
            if is_slug_char c' then
              match alnum_words s' with
              | w :: ws => String c w :: ws
              | [] => [String c EmptyString]
              end
            else String c EmptyString :: alnum_words s'
        | EmptyString => [String c EmptyString]
        end
      else alnum_words s'
  end.

(** A nonempty string of characters of [[a-z0-9]]. *)
Definition is_word (w : string) : Prop :=
  w <> EmptyString /\
  Forall (fun c => is_slug_char c = true) (String.list_ascii_of_string w).


(** The entities whose feature is made of their defining points alone. *)
Definition is_simple (entity : Entity) : bool :=
  let k := dxftype entity in
  String.eqb k "LINE" || String.eqb k "POINT" || String.eqb k "TEXT"
  || String.eqb k "MTEXT" || String.eqb k "INSERT"
  || String.eqb k "DIMENSION".

(** ** The overlays and the requests on them *)

(** The content of an overlay file: [{"type": "FeatureCollection",
    "features": features}]. *)
Record FeatureCollection := {
  fc_type : string;
  fc_features : list Feature
}.

(** The answers of the three requests. *)
Inductive Response :=
| JSONResponse (error : string) (status_code : Z)
| UploadResult (name file : string) (features : Z)
    (bounds : option (R * R * R * R)) (center : option (R * R))
    (skipped : gmap string Z) (filtered : Z)
| Deleted (name : string)
| FileResponse (content : FeatureCollection).

Section Server.

Variable stem : string -> string.
Variable lower : string -> string.
Variable round : R -> Z -> R.
Variable from_crs : string -> string -> bool -> Transformer.

(** [upload_dxf], from the modelspace of the uploaded file on.  The
    directory of the overlays is a map from file names to contents; the
    answer [None] is an exception leaving the request. *)
Definition upload_dxf (overlays : gmap string FeatureCollection)
    (filename : string) (msp : list Entity) (epsg : Z)
  : gmap string FeatureCollection * option Response :=
  match convert_dxf round from_crs msp epsg with
  | None => (overlays, None)
  | Some (features, skipped, filtered) =>
      match features with
      | [] =>
          (overlays,
           Some (JSONResponse "No features found (check EPSG code)" 400))
      | _ =>
          let slug := slugify stem lower filename in
          let geojson := {| fc_type := "FeatureCollection";
                            fc_features := features |} in
          let overlays := <[slug +:+ ".geojson" := geojson]> overlays in
          match compute_bounds features with
          | None => (overlays, None)
          | Some r =>
              (overlays,
               Some (UploadResult slug (slug +:+ ".geojson")
                       (Z.of_nat (length features))
                       (fst <$> r) (snd <$> r) skipped filtered))
          end
      end
  end.

(** [serve_overlay] *)
Definition serve_overlay (overlays : gmap string FeatureCollection)
    (filename : string) : Response :=
  match overlays !! filename with
  | None => JSONResponse "not found" 404
  | Some content => FileResponse content
  end.

(** [delete_overlay] *)
Definition delete_overlay (overlays : gmap string FeatureCollection)
    (name : string) : gmap string FeatureCollection * Response :=
  let path := name +:+ ".geojson" in
  match overlays !! path with
  | Some _ => (delete path overlays, Deleted name)
  | None => (overlays, JSONResponse "not found" 404)
  end.

End Server.

Module MoreSamples.

(** A point inside the bounds. *)
Definition site_point : Entity :=
  Samples.bare "POINT"
    {| dxf_layer := Some "survey"; dxf_color := Some 1; dxf_start := None;
       dxf_end := None; dxf_center := None; dxf_radius := None;
       dxf_start_angle := None; dxf_end_angle := None;
       dxf_location := Some (mkVec3 400000 3700000 0); dxf_insert := None;
       dxf_align_point := None; dxf_halign := None; dxf_valign := None;
       dxf_text := None; dxf_name := None; dxf_defpoint := None;
       dxf_defpoint2 := None |}.

(** The feature of [site_point] without rounding and reprojection. *)
Definition site_feature : Feature :=
  make_feature "Point" (Position (400000, 3700000)%R)
    {[ "color" := "1"; "layer" := "survey"; "type" := "POINT" ]}.

(** Stand-ins for [Path(name).stem] and [str.lower] on names that are in
    lower case and have no directory and no suffix. *)
Definition plain_stem (name : string) : string := name.
Definition plain_lower (name : string) : string := name.

End MoreSamples.

(** * Properties *)

Ltac exec_unfold :=
  unfold mbind, mret, Exec_bind, Exec_ret, attr, continue, try_except,
    filtered_incr, skipped_incr, features_append, plausible, to_wcs.

Ltac exec := repeat first [ progress cbn -[in_utm_range] | progress exec_unfold ].

Ltac case_attr :=
  match goal with
  | |- context [match ?o with Some _ => _ | None => _ end] =>
      destruct o eqn:?
  | |- context [in_utm_range ?x ?y] => destruct (in_utm_range x y) eqn:?
  end.

(** ** Comparisons *)

Lemma Rltb_true a b : Rltb a b = true <-> (a < b)%R.
Proof. unfold Rltb. destruct (Rlt_dec a b); split; auto; discriminate. Qed.

Lemma Rltb_false a b : Rltb a b = false <-> (b <= a)%R.
Proof.
  unfold Rltb. destruct (Rlt_dec a b); split; auto; try discriminate; lra.
Qed.



Lemma in_utm_range_spec x y :
  in_utm_range x y = true <->
  (150000 < x < 850000)%R /\ (3100000 < y < 4300000)%R.
Proof.
  unfold in_utm_range. rewrite !andb_true_iff, !Rltb_true. tauto.
Qed.

Lemma in_utm_range_false x y :
  in_utm_range x y = false <->
  ~ ((150000 < x < 850000)%R /\ (3100000 < y < 4300000)%R).
Proof.
  rewrite <- in_utm_range_spec. destruct (in_utm_range x y); split; auto;
    try discriminate. intros H. exfalso. apply H. reflexivity.
Qed.

(** ** Evaluation at given coordinates *)

Lemma in_utm_range_inside x y :
  (150000 < x < 850000)%R -> (3100000 < y < 4300000)%R ->
  in_utm_range x y = true.
Proof. intros. by apply in_utm_range_spec. Defined.

Lemma in_utm_range_outside x y :
  ~ ((150000 < x < 850000)%R /\ (3100000 < y < 4300000)%R) ->
  in_utm_range x y = false.
Proof. apply in_utm_range_false. Defined.

Ltac utm :=
  repeat match goal with
  | |- context [in_utm_range ?x ?y] =>
      first [ rewrite (in_utm_range_inside x y) by lra
            | rewrite (in_utm_range_outside x y) by (intros [? ?]; lra) ]
  end.

Ltac run :=
  unfold convert_dxf, convert_entity, interpret, convert_line,
    convert_lwpolyline, convert_polyline, convert_points, convert_circle,
    convert_arc, convert_point, convert_text, convert_mtext, convert_insert,
    convert_dimension, dimension_body;
  repeat first [ progress exec | progress utm ].

(** ** The plausibility check *)

(** C4: a point is plausible exactly when [150000 < x < 850000] and
    [3100000 < y < 4300000]; both intervals are open, so a coordinate on a
    boundary ([x = 150000], [x = 850000], [y = 3100000], [y = 4300000]) is
    rejected whatever the other coordinate is. *)
Theorem in_utm_range_open_intervals :
  (forall x y : R,
      in_utm_range x y = true <->
      (150000 < x < 850000)%R /\ (3100000 < y < 4300000)%R) /\
  (forall y : R, in_utm_range 150000 y = false) /\
  (forall y : R, in_utm_range 850000 y = false) /\
  (forall x : R, in_utm_range x 3100000 = false) /\
  (forall x : R, in_utm_range x 4300000 = false).
Proof.
  split; [exact in_utm_range_spec|].
  repeat split; intros; apply in_utm_range_false; lra.
Qed.

(** ** Loops that append one element per round *)

Lemma for_in_append {A B : Type} (f : A -> B)
    (body : list B -> A -> option (list B)) (l : list A) :
  (forall coords a, body coords a = Some (coords ++ [f a])) ->
  forall init, for_in l body init = Some (init ++ map f l).
Proof.
  intros Hbody. induction l as [|a l IH]; intros init; simpl.
  - by rewrite app_nil_r.
  - rewrite Hbody. simpl. rewrite IH. by rewrite <- app_assoc.
Qed.

Lemma fdiv_nonzero (a : R) (n : Z) : n <> 0 -> fdiv a n = Some (a / IZR n)%R.
Proof. intros Hn. unfold fdiv. by destruct (decide (n = 0)). Qed.

Lemma range_length (n : Z) : length (range n) = Z.to_nat n.
Proof. apply length_seqZ. Qed.

Lemma head_map_range {B} (f : Z -> B) (n : Z) :
  0 < n -> head (map f (range n)) = Some (f 0).
Proof.
  intros Hn. unfold range, seqZ.
  destruct (Z.to_nat n) as [|k] eqn:Hk; [lia|]. reflexivity.
Qed.

Lemma last_map_range {B} (f : Z -> B) (n : Z) :
  0 < n -> last (map f (range n)) = Some (f (n - 1)).
Proof.
  intros Hn. rewrite last_lookup, length_map, range_length, list_lookup_fmap.
  unfold range. rewrite (lookup_seqZ_lt 0 n (Init.Nat.pred (Z.to_nat n))) by lia.
  simpl. f_equal. f_equal. lia.
Qed.

Section Tessellation.

Variable round : R -> Z -> R.

(** The point of a circle's ring at index [i] of [segments]. *)

Lemma circle_to_polygon_samples cx cy radius t segments :
  segments <> 0 ->
  circle_to_polygon round cx cy radius t segments =
  Some (map (circle_sample round cx cy radius t segments) (range (segments + 1))).
Proof.
  intros Hs. unfold circle_to_polygon.
  rewrite (for_in_append (circle_sample round cx cy radius t segments)); [done|].
  intros coords i. by rewrite fdiv_nonzero.
Qed.

Lemma circle_sample_closed cx cy radius t segments :
  segments <> 0 ->
  circle_sample round cx cy radius t segments segments =
  circle_sample round cx cy radius t segments 0.
Proof.
  intros Hs. unfold circle_sample.
  assert (IZR segments <> 0)%R as Hr by (by apply not_0_IZR).
  replace (2 * PI * IZR segments / IZR segments)%R with (2 * PI)%R
    by (field; done).
  replace (2 * PI * 0 / IZR segments)%R with 0%R by (field; done).
  by rewrite cos_2PI, sin_2PI, cos_0, sin_0.
Qed.

Lemma circle_to_polygon_ring cx cy radius t :
  exists ring first,
    circle_to_polygon round cx cy radius t 64 = Some ring /\
    length ring = 65%nat /\
    head ring = Some first /\ last ring = Some first.
Proof.
  eexists _, (circle_sample round cx cy radius t 64 0).
  split; [by apply circle_to_polygon_samples|].
  split; [by rewrite length_map, range_length|].
  split; [by apply head_map_range|].
  rewrite (last_map_range _ 65) by lia.
  by rewrite <- (circle_sample_closed cx cy radius t 64).
Qed.


Lemma arc_to_linestring_samples cx cy radius start_angle end_angle t segments :
  segments <> 0 ->
  arc_to_linestring round cx cy radius start_angle end_angle t segments =
  Some (map (arc_sample round cx cy radius start_angle end_angle t segments)
            (range (segments + 1))).
Proof.
  intros Hs. unfold arc_to_linestring, arc_sample.
  destruct (arc_angles start_angle end_angle) as [sa ea].
  rewrite (for_in_append (fun i : Z =>
    reproject round t
      (cx + radius * cos (sa + (ea - sa) * IZR i / IZR segments))
      (cy + radius * sin (sa + (ea - sa) * IZR i / IZR segments)))%R);
    [done|].
  intros coords i. by rewrite fdiv_nonzero.
Qed.

Lemma arc_to_linestring_length cx cy radius start_angle end_angle t :
  exists coords,
    arc_to_linestring round cx cy radius start_angle end_angle t 32
      = Some coords /\
    length coords = 33%nat.
Proof.
  eexists. split; [by apply arc_to_linestring_samples|].
  by rewrite length_map, range_length.
Qed.

End Tessellation.

(** ** Arcs *)






(** ** One entity *)

Section Entity.

Variable round : R -> Z -> R.
Variable t : Transformer.

Lemma convert_line_result k e props s :
  interp_result k s (convert_line round t e props s).
Proof.
  unfold convert_line. exec. repeat (case_attr; exec); try by constructor.
  apply (ir_emit k s). by constructor.
Qed.

Lemma closed_ring_shape {A} (coords : list A) :
  (2 <= length coords)%nat ->
  exists first,
    head coords = Some first /\
    (3 <= length (coords ++ [first]))%nat /\
    head (coords ++ [first]) = Some first /\
    last (coords ++ [first]) = Some first.
Proof.
  intros Hlen. destruct coords as [|a coords]; [simpl in Hlen; lia|].
  exists a. rewrite last_snoc, length_app. simpl in *. repeat split; lia.
Qed.

Lemma convert_points_result k points c props s :
  interp_result k s (convert_points round t points c props s).
Proof.
  unfold convert_points.
  set (kept := List.filter plausible points).
  destruct (length kept <? 2)%nat eqn:Hlen; exec; [constructor|].
  apply Nat.ltb_ge in Hlen.
  destruct c as [[|]|]; exec; [| |constructor].
  - destruct (closed_ring_shape
                (map (fun p => reproject round t p.1 p.2) kept))
      as (first & -> & Hlen3 & Hhead & Hlast); [by rewrite length_map|].
    apply (ir_emit k s). by econstructor.
  - apply (ir_emit k s). constructor. by rewrite length_map.
Qed.

Lemma convert_lwpolyline_result k e props s :
  interp_result k s (convert_lwpolyline round t e props s).
Proof.
  unfold convert_lwpolyline. exec_unfold.
  destruct (get_points e) as [raw|]; [|constructor].
  destruct (length raw <? 2)%nat; [constructor|].
  apply convert_points_result.
Qed.

Lemma convert_polyline_result k e props s :
  interp_result k s (convert_polyline round t e props s).
Proof.
  unfold convert_polyline. exec_unfold.
  destruct (vertices e) as [vs|]; [|constructor].
  destruct (mapM _ vs) as [points|]; [|constructor].
  destruct (length points <? 2)%nat; [constructor|].
  apply convert_points_result.
Qed.

Lemma convert_circle_result k e props s :
  interp_result k s (convert_circle round t e props s).
Proof.
  unfold convert_circle. exec.
  destruct (dxf_center (dxf e)) as [center|]; exec; [|constructor].
  destruct (in_utm_range _ _) eqn:Hutm; exec; [|constructor].
  destruct (dxf_radius (dxf e)) as [radius|]; exec; [|constructor].
  destruct (circle_to_polygon_ring round
              (vx (ocs_to_wcs (ocs e) center)) (vy (ocs_to_wcs (ocs e) center))
              radius t) as (ring & first & -> & Hlen & Hhead & Hlast).
  apply (ir_emit k s). econstructor; [lia|done..].
Qed.

Lemma convert_arc_result k e props s :
  interp_result k s (convert_arc round t e props s).
Proof.
  unfold convert_arc. exec.
  destruct (dxf_center (dxf e)) as [center|]; exec; [|constructor].
  destruct (in_utm_range _ _) eqn:Hutm; exec; [|constructor].
  destruct (dxf_radius (dxf e)) as [radius|]; exec; [|constructor].
  destruct (dxf_start_angle (dxf e)) as [sa|]; exec; [|constructor].
  destruct (dxf_end_angle (dxf e)) as [ea|]; exec; [|constructor].
  destruct (arc_to_linestring_length round
              (vx (ocs_to_wcs (ocs e) center)) (vy (ocs_to_wcs (ocs e) center))
              radius sa ea t) as (coords & -> & Hlen).
  rewrite Hlen. exec. apply (ir_emit k s). constructor. lia.
Qed.

Lemma convert_point_result k e props s :
  interp_result k s (convert_point round t e props s).
Proof.
  unfold convert_point. exec. repeat (case_attr; exec); try by constructor.
  apply (ir_emit k s). by constructor.
Qed.

Lemma convert_text_result k e props s :
  interp_result k s (convert_text round t e props s).
Proof.
  unfold convert_text. exec.
  destruct (_ || _); exec;
    (destruct (dxf_insert (dxf e)) as [insert|]; exec; [|constructor]);
    (destruct (in_utm_range _ _) eqn:Hutm; exec; [|constructor]);
    apply (ir_emit k s); by constructor.
Qed.

Lemma convert_mtext_result k e props s :
  interp_result k s (convert_mtext round t e props s).
Proof.
  unfold convert_mtext. exec.
  destruct (dxf_insert (dxf e)) as [insert|]; exec; [|constructor].
  destruct (in_utm_range _ _) eqn:Hutm; exec; [|constructor].
  apply (ir_emit k s); by constructor.
Qed.

Lemma convert_insert_result k e props s :
  interp_result k s (convert_insert round t e props s).
Proof.
  unfold convert_insert. exec.
  destruct (dxf_insert (dxf e)) as [insert|]; exec; [|constructor].
  destruct (in_utm_range _ _) eqn:Hutm; exec; [|constructor].
  apply (ir_emit k s); by constructor.
Qed.

Lemma dimension_body_result k e props s :
  interp_result k s (dimension_body round t e props s).
Proof.
  unfold dimension_body. exec. repeat (case_attr; exec); try by constructor.
  apply (ir_emit k s). by constructor.
Qed.

(** The inner [try] of the DIMENSION branch lets no exception out. *)
Lemma convert_dimension_result k e props s :
  interp_result k s (convert_dimension round t e props s) /\
  (convert_dimension round t e props s).2 <> Raise.
Proof.
  unfold convert_dimension, try_except.
  destruct (dimension_body_result k e props s); exec; split;
    try done; by constructor.
Qed.

Lemma interpret_result e props s :
  interp_result (dxftype e) s (interpret round t e props s).
Proof.
  unfold interpret.
  repeat match goal with
         | |- context [String.eqb ?a ?b] => destruct (String.eqb a b)
         end.
  - apply convert_line_result.
  - apply convert_lwpolyline_result.
  - apply convert_polyline_result.
  - apply convert_circle_result.
  - apply convert_arc_result.
  - apply convert_point_result.
  - apply convert_text_result.
  - apply convert_mtext_result.
  - apply convert_insert_result.
  - apply convert_dimension_result.
  - constructor.
Qed.

(** An exception inside the dispatch leaves the state as it was. *)
Lemma interpret_raise e props s :
  (interpret round t e props s).2 = Raise ->
  interpret round t e props s = (s, Raise).
Proof.
  destruct (interpret_result e props s); simpl; intros; by simplify_eq.
Qed.

Lemma dimension_body_raise e props s :
  (dimension_body round t e props s).2 = Raise ->
  dimension_body round t e props s = (s, Raise).
Proof.
  destruct (dimension_body_result (dxftype e) e props s); simpl; intros;
    by simplify_eq.
Qed.

Lemma interpret_dimension e props s :
  dxftype e = "DIMENSION" ->
  interpret round t e props s = convert_dimension round t e props s.
Proof. intros Hk. unfold interpret. by rewrite Hk. Qed.

Lemma interpret_raise_not_dimension e props s :
  (interpret round t e props s).2 = Raise -> dxftype e <> "DIMENSION".
Proof.
  intros Hraise Hk. rewrite interpret_dimension in Hraise by done.
  by apply (convert_dimension_result (dxftype e) e props s).
Qed.

Lemma convert_entity_dimension_raise e s :
  dxftype e = "DIMENSION" ->
  (dimension_body round t e (entity_props e) s).2 = Raise ->
  convert_entity round t e s = (s, Normal tt).
Proof.
  intros Hk Hraise. unfold convert_entity, try_except.
  rewrite interpret_dimension by done. unfold convert_dimension, try_except.
  by rewrite (dimension_body_raise _ _ _ Hraise).
Qed.

Lemma convert_entity_raise e s :
  (interpret round t e (entity_props e) s).2 = Raise ->
  convert_entity round t e s = (bump_skipped (dxftype e) s, Normal tt).
Proof.
  intros Hraise. unfold convert_entity, try_except.
  by rewrite (interpret_raise _ _ _ Hraise).
Qed.

Lemma convert_entity_result e s :
  entity_result (dxftype e) s (convert_entity round t e s).
Proof.
  unfold convert_entity, try_except.
  destruct (interpret_result e (entity_props e) s); try by constructor.
Qed.

Lemma convert_entity_no_raise e s : (convert_entity round t e s).2 <> Raise.
Proof. by destruct (convert_entity_result e s). Qed.

Lemma convert_entity_emitted e s :
  Forall emitted (features s) ->
  Forall emitted (features (convert_entity round t e s).1).
Proof.
  intros Hs. destruct (convert_entity_result e s); simpl; try done.
  apply Forall_app. split; [done|]. by constructor.
Qed.

(** ** The whole batch *)

Lemma for_each_cons e l s :
  for_each (e :: l) (convert_entity round t) s =
  for_each l (convert_entity round t) (convert_entity round t e s).1.
Proof.
  simpl. pose proof (convert_entity_no_raise e s) as Hno.
  by destruct (convert_entity round t e s) as [s' [[]| |]].
Qed.

Lemma for_each_normal l s :
  (for_each l (convert_entity round t) s).2 = Normal tt.
Proof.
  revert s. induction l as [|e l IH]; intros s; [done|].
  rewrite for_each_cons. apply IH.
Qed.

Lemma for_each_app l1 l2 s :
  for_each (l1 ++ l2) (convert_entity round t) s =
  for_each l2 (convert_entity round t)
    (for_each l1 (convert_entity round t) s).1.
Proof.
  revert s. induction l1 as [|e l1 IH]; intros s; [done|].
  rewrite <- app_comm_cons, !for_each_cons. apply IH.
Qed.

Lemma for_each_emitted l s :
  Forall emitted (features s) ->
  Forall emitted (features (for_each l (convert_entity round t) s).1).
Proof.
  revert s. induction l as [|e l IH]; intros s Hs; [done|].
  rewrite for_each_cons. by apply IH, convert_entity_emitted.
Qed.

End Entity.

Section Batch.

Variable round : R -> Z -> R.
Variable from_crs : string -> string -> bool -> Transformer.

Lemma convert_dxf_eq msp source_epsg :
  convert_dxf round from_crs msp source_epsg =
  let s := (for_each msp
              (convert_entity round (make_transformer from_crs source_epsg))
              initial).1 in
  Some (features s, skipped s, filtered s).
Proof.
  unfold convert_dxf.
  pose proof (for_each_normal round
                (make_transformer from_crs source_epsg) msp initial) as Hn.
  destruct (for_each msp _ initial) as [s sig]. simpl in *. by subst.
Qed.

Lemma convert_dxf_emitted msp source_epsg fs sk n :
  convert_dxf round from_crs msp source_epsg = Some (fs, sk, n) ->
  Forall emitted fs.
Proof.
  rewrite convert_dxf_eq. simpl. intros [= <- _ _].
  apply for_each_emitted. constructor.
Qed.

End Batch.

(** ** Failures *)

(** C8: when the read of either definition point of a DIMENSION fails, the
    inner handler swallows the exception: the entity leaves the state as it
    was (no feature, [skipped] and [filtered] untouched) and the loop goes
    on; for every other type an exception in the dispatch is counted in
    [skipped]. *)
Theorem dimension_failure_is_silent (round : R -> Z -> R) (t : Transformer)
    (e : Entity) (s : State) :
  dxftype e = "DIMENSION" ->
  dxf_defpoint (dxf e) = None \/ dxf_defpoint2 (dxf e) = None ->
  dimension_body round t e (entity_props e) s = (s, Raise) /\
  convert_entity round t e s = (s, Normal tt) /\
  (forall e' s',
      dxftype e' <> "DIMENSION" ->
      (interpret round t e' (entity_props e') s').2 = Raise ->
      convert_entity round t e' s'
      = (bump_skipped (dxftype e') s', Normal tt)).
Proof.
  intros Hk Hmissing.
  assert (dimension_body round t e (entity_props e) s = (s, Raise)) as Hbody.
  { unfold dimension_body. exec.
    destruct Hmissing as [-> | Hd2]; [done|].
    destruct (dxf_defpoint (dxf e)); [|done]. exec. by rewrite Hd2. }
  split; [done|]. split.
  - apply convert_entity_dimension_raise; [done|]. by rewrite Hbody.
  - intros e' s' _. apply convert_entity_raise.
Qed.

Lemma dimension_failure_is_silent_witness :
  dimension_body Samples.exact_round
    (Samples.plain_crs "EPSG:32638" "EPSG:4326" true)
    Samples.broken_dimension (entity_props Samples.broken_dimension) initial
  = (initial, Raise) /\
  convert_entity Samples.exact_round
    (Samples.plain_crs "EPSG:32638" "EPSG:4326" true)
    Samples.broken_dimension initial
  = (initial, Normal tt).
Proof.
  destruct (dimension_failure_is_silent Samples.exact_round
              (Samples.plain_crs "EPSG:32638" "EPSG:4326" true)
              Samples.broken_dimension initial) as (H1 & H2 & _).
  - reflexivity.
  - left. reflexivity.
  - split; [exact H1 | exact H2].
Defined.

(** C3, as the code has it: an exception that leaves the dispatch on an
    entity comes from a type other than DIMENSION; it is caught at the
    entity, counts one more in [skipped] under the entity's type and changes
    nothing else, and the loop goes on with the entities after it.  An
    exception inside a DIMENSION is caught by the inner handler and counts
    nothing.  No entity makes [convert_dxf] raise. *)
Theorem entity_failure_is_counted (round : R -> Z -> R) (t : Transformer)
    (e : Entity) (s : State) :
  (interpret round t e (entity_props e) s).2 = Raise ->
  dxftype e <> "DIMENSION" /\
  convert_entity round t e s = (bump_skipped (dxftype e) s, Normal tt) /\
  skipped (bump_skipped (dxftype e) s) !! dxftype e
    = Some (default 0 (skipped s !! dxftype e) + 1) /\
  features (bump_skipped (dxftype e) s) = features s /\
  filtered (bump_skipped (dxftype e) s) = filtered s /\
  (forall before after s0,
      (for_each before (convert_entity round t) s0).1 = s ->
      for_each (before ++ e :: after) (convert_entity round t) s0 =
      for_each after (convert_entity round t) (bump_skipped (dxftype e) s)) /\
  (forall d s',
      dxftype d = "DIMENSION" ->
      (dimension_body round t d (entity_props d) s').2 = Raise ->
      convert_entity round t d s' = (s', Normal tt)) /\
  (forall from_crs msp source_epsg,
      is_Some (convert_dxf round from_crs msp source_epsg)).
Proof.
  intros Hraise.
  split; [by apply (interpret_raise_not_dimension round t e (entity_props e) s)|].
  split; [by apply convert_entity_raise|].
  split; [apply lookup_insert_eq|].
  split; [done|]. split; [done|]. split; [|split].
  - intros before after s0 <-. rewrite for_each_app, for_each_cons.
    by rewrite convert_entity_raise.
  - intros d s'. apply convert_entity_dimension_raise.
  - intros from_crs msp source_epsg. rewrite convert_dxf_eq. by eexists.
Qed.

Lemma entity_failure_is_counted_witness :
  convert_entity Samples.exact_round
    (Samples.plain_crs "EPSG:32638" "EPSG:4326" true)
    Samples.broken_line initial
  = (bump_skipped "LINE" initial, Normal tt) /\
  skipped (bump_skipped "LINE" initial) !! "LINE" = Some 1.
Proof.
  destruct (entity_failure_is_counted Samples.exact_round
              (Samples.plain_crs "EPSG:32638" "EPSG:4326" true)
              Samples.broken_line initial) as (_ & H1 & H2 & _).
  - reflexivity.
  - split; [exact H1 | exact H2].
Defined.

(** C3, as the claim states it, fails: interpreting a DIMENSION without its
    definition points raises, and [skipped] stays empty. *)
Lemma broken_dimension_not_counted :
  (dimension_body Samples.exact_round
     (Samples.plain_crs "EPSG:32638" "EPSG:4326" true)
     Samples.broken_dimension (entity_props Samples.broken_dimension)
     initial).2 = Raise /\
  convert_dxf Samples.exact_round Samples.plain_crs
    [Samples.broken_dimension] 32638 = Some ([], ∅, 0) /\
  (∅ : gmap string Z) !! "DIMENSION" = None.
Proof. repeat split. Qed.

(** ** Arcs and short polylines *)

(** C10: [arc_to_linestring] with its default [segments=32] returns exactly
    33 points whatever its inputs, so the test [len(coords) >= 2] of the ARC
    branch always passes: an ARC whose centre is plausible (its radius and
    angles being there to read) appends exactly one LineString feature, of 33
    coordinates, and touches no counter. *)
Theorem arc_always_emitted (round : R -> Z -> R) (t : Transformer)
    (e : Entity) (s : State) (center : Vec3) (radius start_angle end_angle : R) :
  dxftype e = "ARC" ->
  dxf_center (dxf e) = Some center ->
  plausible (to_wcs e center) = true ->
  dxf_radius (dxf e) = Some radius ->
  dxf_start_angle (dxf e) = Some start_angle ->
  dxf_end_angle (dxf e) = Some end_angle ->
  (forall cx cy r a b t',
      exists coords,
        arc_to_linestring round cx cy r a b t' 32 = Some coords /\
        length coords = 33%nat /\
        (2 <=? length coords)%nat = true) /\
  exists coords,
    arc_to_linestring round (to_wcs e center).1 (to_wcs e center).2
      radius start_angle end_angle t 32 = Some coords /\
    length coords = 33%nat /\
    convert_entity round t e s =
    (push_feature
       (make_feature "LineString" (Positions coords) (entity_props e)) s,
     Normal tt).
Proof.
  intros Hk Hcenter Hplausible Hradius Hstart Hend. split.
  - intros cx cy r a b t'.
    destruct (arc_to_linestring_length round cx cy r a b t')
      as (coords & Hcoords & Hlen).
    exists coords. by rewrite Hlen.
  - destruct (arc_to_linestring_length round (to_wcs e center).1
                (to_wcs e center).2 radius start_angle end_angle t)
      as (coords & Hcoords & Hlen).
    exists coords. split; [done|]. split; [done|].
    unfold plausible in Hplausible. unfold to_wcs in *. simpl in *.
    unfold convert_entity, try_except, interpret. rewrite Hk. simpl.
    unfold convert_arc. exec.
    rewrite Hcenter. exec. rewrite Hplausible. exec.
    rewrite Hradius, Hstart, Hend. exec.
    rewrite Hcoords, Hlen. by exec.
Qed.

Lemma arc_always_emitted_witness :
  exists coords,
    length coords = 33%nat /\
    convert_entity Samples.exact_round
      (Samples.plain_crs "EPSG:32638" "EPSG:4326" true)
      Samples.arc_270_90 initial =
    (push_feature
       (make_feature "LineString" (Positions coords)
          (entity_props Samples.arc_270_90)) initial,
     Normal tt).
Proof.
  destruct (arc_always_emitted Samples.exact_round
              (Samples.plain_crs "EPSG:32638" "EPSG:4326" true)
              Samples.arc_270_90 initial (mkVec3 400000 3700000 0) 10 270 90)
    as (_ & coords & _ & Hlen & Hrun); try reflexivity.
  - apply in_utm_range_inside; simpl; lra.
  - exists coords. split; [exact Hlen | exact Hrun].
Defined.



(** ** Filtering *)

Section Filtering.

Variable round : R -> Z -> R.
Variable t : Transformer.

Lemma convert_points_filtered points c props s :
  (length (List.filter plausible points) < 2)%nat ->
  convert_points round t points c props s = (bump_filtered s, Continue).
Proof.
  intros Hlen. unfold convert_points.
  apply Nat.ltb_lt in Hlen. by rewrite Hlen.
Qed.

Lemma convert_points_kept points c props s :
  (2 <= length (List.filter plausible points))%nat ->
  convert_points round t points (Some c) props s =
  (push_feature
     (polyline_feature round t (List.filter plausible points) c props) s,
   Normal tt).
Proof.
  intros Hlen. unfold convert_points, polyline_feature.
  set (kept := List.filter plausible points) in *.
  apply Nat.ltb_ge in Hlen as Hlt. rewrite Hlt.
  destruct kept as [|p kept]; [simpl in Hlen; lia|].
  by destruct c.
Qed.

Lemma polyline_entity_points e s points :
  is_polyline e = true ->
  defining_points e = Some points ->
  (2 <= length points)%nat ->
  convert_entity round t e s =
  try_except (convert_points round t points (closed_flag e) (entity_props e))
             (skipped_incr (dxftype e)) s.
Proof.
  unfold is_polyline, defining_points, closed_flag, convert_entity, interpret.
  intros Hk Hpoints Hlen.
  destruct (String.eqb (dxftype e) "LINE") eqn:Hline.
  { apply String.eqb_eq in Hline. rewrite Hline in Hk. done. }
  destruct (String.eqb (dxftype e) "LWPOLYLINE") eqn:Hlw.
  - unfold convert_lwpolyline, try_except, mbind, Exec_bind, attr.
    destruct (get_points e) as [raw|]; [|done]. simpl in Hpoints.
    injection Hpoints as <-. rewrite length_map in Hlen.
    by apply Nat.ltb_ge in Hlen as ->.
  - simpl in Hk. rewrite Hk in *.
    unfold convert_polyline, try_except, mbind, Exec_bind, attr.
    destruct (vertices e) as [vs|]; [|done]. simpl in Hpoints.
    rewrite Hpoints. by apply Nat.ltb_ge in Hlen as ->.
Qed.

Ltac case_kind :=
  match goal with
  | |- context [String.eqb (dxftype ?e) ?k] =>
      destruct (String.eqb (dxftype e) k) eqn:?; simpl
  end.

Ltac case_utm :=
  repeat match goal with
  | |- context [in_utm_range ?x ?y] => destruct (in_utm_range x y)
  end.

Lemma entity_filtered e s points :
  is_polyline e = false ->
  defining_points e = Some points ->
  Exists (fun p => plausible p = false) points ->
  convert_entity round t e s = (bump_filtered s, Continue).
Proof.
  unfold is_polyline, defining_points, convert_entity, try_except, interpret.
  intros Hk Hpoints Hex. revert Hk Hpoints.
  repeat case_kind; try discriminate; intros _ Hpoints;
    unfold to_wcs, plausible in *.
  all: try discriminate.
  all: unfold convert_line, convert_circle, convert_arc, convert_point,
         convert_text, convert_mtext, convert_insert, convert_dimension,
         dimension_body.
  all: exec. all: unfold mbind, option_bind in Hpoints.
  all: repeat match type of Hpoints with
       | context [match ?o with Some _ => _ | None => _ end] =>
           destruct o; simpl in Hpoints; try discriminate
       end.
  all: injection Hpoints as <-.
  all: rewrite ?Exists_cons, Exists_nil in Hex; simpl in Hex.
  all: exec.
  all: try (destruct Hex as [Hex|[Hex|[]]]; rewrite Hex; case_utm; by exec).
  all: try (destruct Hex as [Hex|[]]; try rewrite Hex; by exec).
  all: destruct (negb _ || negb _); exec;
         destruct Hex as [Hex|[]]; rewrite Hex; by exec.
Qed.

End Filtering.

(** C1, as the code has it: for a supported entity other than a polyline, one
    defining point that fails the check filters the whole entity: no feature,
    [filtered] one higher, whatever the number of failing points.  For a
    polyline of at least 2 vertices the failing vertices are removed one by
    one; the entity is filtered, once, when fewer than 2 plausible vertices
    remain, and otherwise a feature over the remaining vertices is
    appended. *)
Theorem implausible_points_filter (round : R -> Z -> R) (t : Transformer)
    (e : Entity) (s : State) (points : list (R * R)) :
  defining_points e = Some points ->
  Exists (fun p => plausible p = false) points ->
  (is_polyline e = false ->
   convert_entity round t e s = (bump_filtered s, Continue)) /\
  (is_polyline e = true -> (2 <= length points)%nat ->
   ((length (List.filter plausible points) < 2)%nat ->
    convert_entity round t e s = (bump_filtered s, Continue)) /\
   (forall c : bool,
       (2 <= length (List.filter plausible points))%nat ->
       closed_flag e = Some c ->
       convert_entity round t e s =
       (push_feature
          (polyline_feature round t (List.filter plausible points) c
             (entity_props e)) s,
        Normal tt))) /\
  features (bump_filtered s) = features s /\
  skipped (bump_filtered s) = skipped s /\
  filtered (bump_filtered s) = filtered s + 1.
Proof.
  intros Hpoints Hex. split; [|split; [|done]].
  - intros Hk. by apply (entity_filtered round t e s points).
  - intros Hk Hlen.
    rewrite (polyline_entity_points round t e s points) by done.
    unfold try_except. split.
    + intros Hkept. by rewrite convert_points_filtered.
    + intros c Hkept ->. by rewrite convert_points_kept.
Qed.

Lemma implausible_points_filter_witness :
  convert_entity Samples.exact_round
    (Samples.plain_crs "EPSG:32638" "EPSG:4326" true)
    Samples.stray_line initial = (bump_filtered initial, Continue) /\
  filtered (bump_filtered initial) = 1.
Proof.
  destruct (implausible_points_filter Samples.exact_round
              (Samples.plain_crs "EPSG:32638" "EPSG:4326" true)
              Samples.stray_line initial
              [(300000, 3600000); (10, 10)]%R) as (H1 & _ & _ & _ & H2).
  - reflexivity.
  - apply Exists_cons_tl, Exists_cons_hd.
    apply in_utm_range_outside. simpl. intros [? ?]; lra.
  - split; [apply H1; reflexivity | exact H2].
Defined.

(** C1, as the claim states it, fails: the third vertex of this open
    polyline is implausible, yet the entity is not filtered; a LineString
    over the two other vertices is emitted and [filtered] stays 0. *)
Lemma stray_vertex_not_filtered :
  defining_points Samples.stray_vertex
  = Some [(300000, 3600000); (300100, 3600100); (10, 10)]%R /\
  plausible (10, 10)%R = false /\
  convert_dxf Samples.exact_round Samples.plain_crs
    [Samples.stray_vertex] 32638
  = Some ([make_feature "LineString"
             (Positions [(300000, 3600000); (300100, 3600100)]%R)
             {[ "layer" := "0"; "type" := "LWPOLYLINE" ]}], ∅, 0).
Proof.
  split; [reflexivity|]. split.
  - apply in_utm_range_outside. simpl. intros [? ?]; lra.
  - unfold Samples.stray_vertex, Samples.lwpolyline. run. reflexivity.
Qed.

(** ** What the batch emits *)

Section Emitted.

Variable round : R -> Z -> R.
Variable from_crs : string -> string -> bool -> Transformer.



End Emitted.





(** ** The scenarios of the specification *)

(** A point outside the bounds is filtered, an entity of an unknown type is
    counted under its type, a line that cannot be read is counted too, and a
    dimension that cannot be read leaves no trace. *)
Example mixed_batch :
  convert_dxf Samples.exact_round Samples.plain_crs
    [Samples.origin_point; Samples.hatch; Samples.broken_line;
     Samples.hatch; Samples.broken_dimension] 32638
  = Some ([], {[ "HATCH" := 2; "LINE" := 1 ]}, 1).
Proof.
  unfold Samples.origin_point, Samples.hatch, Samples.broken_line,
    Samples.broken_dimension, Samples.bare.
  run. reflexivity.
Qed.

(** * Beyond the stated claims *)

(** ** The tessellators at any number of segments *)



Lemma range_nonpositive (n : Z) : n <= 0 -> range n = [].
Proof.
  intros Hn. unfold range, seqZ.
  replace (Z.to_nat n) with 0%nat by lia. reflexivity.
Qed.

Section MoreTessellation.

Variable round : R -> Z -> R.


(** X2: the degenerate numbers of segments.  With [segments = 0] both
    tessellators raise (the division by [segments] in the first round); with
    a negative number the loop has no round and the result is the empty
    list. *)
Theorem tessellators_without_segments (cx cy radius start_angle end_angle : R)
    (t : Transformer) (segments : Z) :
  segments <= 0 ->
  circle_to_polygon round cx cy radius t segments
    = (if decide (segments = 0) then None else Some []) /\
  arc_to_linestring round cx cy radius start_angle end_angle t segments
    = (if decide (segments = 0) then None else Some []).
Proof.
  intros Hs. unfold circle_to_polygon, arc_to_linestring.
  destruct (arc_angles start_angle end_angle) as [sa ea].
  destruct (decide (segments = 0)) as [->|Hne].
  - split; reflexivity.
  - rewrite range_nonpositive by lia. split; reflexivity.
Qed.





End MoreTessellation.


Lemma tessellators_without_segments_witness :
  circle_to_polygon Samples.exact_round 400000 3700000 10
    (Samples.plain_crs "EPSG:32638" "EPSG:4326" true) 0 = None /\
  arc_to_linestring Samples.exact_round 400000 3700000 10 270 90
    (Samples.plain_crs "EPSG:32638" "EPSG:4326" true) 0 = None.
Proof.
  apply (tessellators_without_segments Samples.exact_round 400000 3700000 10
           270 90 (Samples.plain_crs "EPSG:32638" "EPSG:4326" true) 0).
  lia.
Defined.


(** ** What one entity does, whatever the state *)

Ltac case_key key :=
  repeat match goal with
  | |- context [String.eqb key ?k] =>
      let Hk := fresh "Hk" in
      destruct (String.eqb key k) eqn:Hk;
      [ apply String.eqb_eq in Hk; subst key
      | apply String.eqb_neq in Hk ]
  end.


Ltac case_type :=
  match goal with
  | |- context [String.eqb (dxftype ?e) ?k] =>
      destruct (String.eqb (dxftype e) k) eqn:?; simpl
  end.

Ltac kind_facts :=
  repeat match goal with
  | H : String.eqb (dxftype ?e) ?k = true |- _ =>
      apply String.eqb_eq in H; rewrite ?H
  | H : String.eqb (dxftype ?e) ?k = false |- _ => rewrite ?H; clear H
  end.

Ltac solve_props :=
  let key := fresh "key" in
  intros key; unfold entity_props, text_of, block_of;
  kind_facts; simpl;
  repeat match goal with
  | |- context [entity_color ?e] => destruct (entity_color e)
  | |- context [dxf_name ?d] => destruct (dxf_name d)
  end;
  case_key key; simplify_map_eq; reflexivity.

Ltac solve_feature :=
  split; [reflexivity|]; split;
  [ unfold geometry_type_of, is_polyline, closed_flag; simpl; kind_facts;
    simpl;
    repeat match goal with
    | H : closed _ = _ |- _ => rewrite H; clear H
    | H : is_closed _ = _ |- _ => rewrite H; clear H
    end;
    reflexivity
  | simpl; solve_props ].

Ltac case_reads e :=
  repeat match goal with
  | |- context [dxf_start (dxf e)] => destruct (dxf_start (dxf e))
  | |- context [dxf_end (dxf e)] => destruct (dxf_end (dxf e))
  | |- context [dxf_center (dxf e)] => destruct (dxf_center (dxf e))
  | |- context [dxf_radius (dxf e)] => destruct (dxf_radius (dxf e))
  | |- context [dxf_start_angle (dxf e)] =>
      destruct (dxf_start_angle (dxf e))
  | |- context [dxf_end_angle (dxf e)] => destruct (dxf_end_angle (dxf e))
  | |- context [dxf_location (dxf e)] => destruct (dxf_location (dxf e))
  | |- context [dxf_insert (dxf e)] => destruct (dxf_insert (dxf e))
  | |- context [dxf_defpoint (dxf e)] => destruct (dxf_defpoint (dxf e))
  | |- context [dxf_defpoint2 (dxf e)] => destruct (dxf_defpoint2 (dxf e))
  | |- context [in_utm_range ?x ?y] => destruct (in_utm_range x y)
  | |- context [negb (?a =? 0) || negb (?b =? 0)] =>
      destruct (negb (a =? 0) || negb (b =? 0))
  end.

Ltac give_effect e :=
  first
    [ exists NoEffect, (Normal tt); split; [done|]; split; [exact I|];
      intros; reflexivity
    | exists NoEffect, Continue; split; [done|]; split; [exact I|];
      intros; reflexivity
    | exists CountFiltered, Continue; split; [done|]; split; [exact I|];
      intros; reflexivity
    | exists (CountSkipped (dxftype e)), (Normal tt); split; [done|];
      split; [reflexivity|]; intros; reflexivity
    | eexists (EmitFeature _), (Normal tt); split; [done|];
      split; [|intros; reflexivity]; solve_feature ].

Section Effects.
Variable round : R -> Z -> R.
Variable t : Transformer.

Lemma convert_entity_effect e :
  exists eff sig,
    sig <> Raise /\ effect_of e eff /\
    forall s, convert_entity round t e s = (apply_effect eff s, sig).
Proof.
  unfold convert_entity, interpret.
  repeat case_type.
  all: unfold convert_line, convert_circle, convert_arc, convert_point,
         convert_text, convert_mtext, convert_insert, convert_dimension,
         dimension_body.
  all: exec.
  all: case_reads e; exec.
  all: try give_effect e.
  - unfold convert_lwpolyline, convert_points. exec.
    destruct (get_points e) as [raw|]; exec; [|give_effect e].
    destruct (length raw <=? 1)%nat; exec; [give_effect e|].
    destruct (List.filter _ _) as [|p kept]; exec; [give_effect e|].
    destruct kept as [|q kept]; exec; [give_effect e|].
    destruct (closed e) as [[|]|] eqn:Hc; exec; give_effect e.
  - unfold convert_polyline, convert_points. exec.
    destruct (vertices e) as [vs|]; exec; [|give_effect e].
    destruct (mapM _ vs) as [points|]; exec; [|give_effect e].
    destruct (length points <=? 1)%nat; exec; [give_effect e|].
    destruct (List.filter _ _) as [|p kept]; exec; [give_effect e|].
    destruct kept as [|q kept]; exec; [give_effect e|].
    destruct (is_closed e) as [[|]|] eqn:Hc; exec; give_effect e.
Qed.
End Effects.

Section Independence.
Variable round : R -> Z -> R.
Variable t : Transformer.

Lemma skipped_count_bump k k' sk :
  skipped_count (<[k' := default 0 (sk !! k') + 1]> sk) k
  = skipped_count sk k + (if String.eqb k' k then 1 else 0).
Proof.
  unfold skipped_count. destruct (String.eqb k' k) eqn:Hk.
  - apply String.eqb_eq in Hk as ->. rewrite lookup_insert_eq. simpl. lia.
  - apply String.eqb_neq in Hk. rewrite lookup_insert_ne by done. lia.
Qed.

(** What an effect adds to the three parts of the state. *)
Lemma apply_effect_parts eff s :
  features (apply_effect eff s)
    = features s ++ features (apply_effect eff initial) /\
  filtered (apply_effect eff s)
    = filtered s + filtered (apply_effect eff initial) /\
  forall k, skipped_count (skipped (apply_effect eff s)) k
            = skipped_count (skipped s) k
              + skipped_count (skipped (apply_effect eff initial)) k.
Proof.
  destruct eff as [f| |k'|]; simpl; repeat split; intros;
    rewrite ?app_nil_r, ?skipped_count_bump; unfold skipped_count;
    rewrite ?lookup_empty; simpl; try lia; try done.
Qed.

Lemma run_cons e msp s :
  run_batch round t (e :: msp) s
  = run_batch round t msp (convert_entity round t e s).1.
Proof. unfold run_batch. by rewrite for_each_cons. Qed.

Lemma run_parts msp s :
  features (run_batch round t msp s)
    = features s ++ features (run_batch round t msp initial) /\
  filtered (run_batch round t msp s)
    = filtered s + filtered (run_batch round t msp initial) /\
  forall k, skipped_count (skipped (run_batch round t msp s)) k
            = skipped_count (skipped s) k
              + skipped_count (skipped (run_batch round t msp initial)) k.
Proof.
  revert s. induction msp as [|e msp IH]; intros s.
  - unfold run_batch. simpl. rewrite app_nil_r. repeat split; try lia.
    intros k. unfold skipped_count. rewrite lookup_empty. simpl. lia.
  - rewrite !run_cons.
    destruct (convert_entity_effect round t e) as (eff & sig & _ & _ & He).
    rewrite !He. simpl.
    destruct (IH (apply_effect eff s)) as (Hf & Hn & Hk).
    destruct (IH (apply_effect eff initial)) as (Hf0 & Hn0 & Hk0).
    destruct (apply_effect_parts eff s) as (Ef & En & Ek).
    rewrite Hf, Hn, Hf0, Hn0, Ef, En. repeat split.
    + by rewrite app_assoc.
    + lia.
    + intros k. rewrite Hk, Hk0, Ek. lia.
Qed.


Lemma run_app msp1 msp2 s :
  run_batch round t (msp1 ++ msp2) s
  = run_batch round t msp2 (run_batch round t msp1 s).
Proof. unfold run_batch. by rewrite for_each_app. Qed.

(** The features come from the entities, in their order, at most one each. *)
Lemma run_provenance msp :
  exists es,
    sublist es msp /\
    Forall2 feature_of es (features (run_batch round t msp initial)).
Proof.
  induction msp as [|e msp (es & Hsub & Hall)].
  - exists []. split; [done|]. constructor.
  - rewrite run_cons.
    destruct (convert_entity_effect round t e) as (eff & sig & _ & Hof & He).
    rewrite He. cbn [fst].
    destruct (run_parts msp (apply_effect eff initial)) as (-> & _).
    destruct eff as [f| |k|]; simpl.
    + exists (e :: es). split; [by apply sublist_skip|]. by constructor.
    + exists es. split; [by apply sublist_cons|done].
    + exists es. split; [by apply sublist_cons|done].
    + exists es. split; [by apply sublist_cons|done].
Qed.

Lemma count_type_cons k e msp :
  count_type k (e :: msp)
  = ((if String.eqb (dxftype e) k then 1 else 0) + count_type k msp)%nat.
Proof. unfold count_type. simpl. by destruct (String.eqb (dxftype e) k). Qed.

Lemma skipped_total_bump k sk :
  skipped_total (<[k := default 0 (sk !! k) + 1]> sk) = skipped_total sk + 1.
Proof.
  unfold skipped_total.
  destruct (sk !! k) as [c|] eqn:Hk; simpl.
  - rewrite <- (insert_delete_eq sk k (c + 1)).
    rewrite map_fold_insert_L;
      [|intros; lia|apply lookup_delete_eq].
    rewrite (map_fold_delete_L _ _ k c sk); [lia|intros; lia|done].
  - rewrite map_fold_insert_L; [lia|intros; lia|done].
Qed.

(** Every entity counts at most once, in one of the three counters. *)
Lemma run_conservation msp s :
  Z.of_nat (length (features (run_batch round t msp s)))
    + filtered (run_batch round t msp s)
    + skipped_total (skipped (run_batch round t msp s))
  <= Z.of_nat (length (features s)) + filtered s + skipped_total (skipped s)
     + Z.of_nat (length msp).
Proof.
  revert s. induction msp as [|e msp IH]; intros s.
  - unfold run_batch. simpl. lia.
  - rewrite run_cons.
    destruct (convert_entity_effect round t e) as (eff & sig & _ & _ & He).
    rewrite He. cbn [fst]. etrans; [apply IH|].
    destruct eff as [f| |k|]; simpl;
      rewrite ?length_app, ?skipped_total_bump; simpl; lia.
Qed.

Lemma effect_skipped_count e eff k :
  effect_of e eff ->
  0 <= skipped_count (skipped (apply_effect eff initial)) k
    <= (if String.eqb (dxftype e) k then 1 else 0).
Proof.
  intros Hof. destruct eff as [f| |k'|]; simpl in *.
  4: change (skipped initial) with (∅ : gmap string Z).
  1, 2, 4: unfold skipped_count; rewrite lookup_empty; simpl;
    destruct (String.eqb (dxftype e) k); lia.
  subst k'. rewrite skipped_count_bump.
  unfold skipped_count. rewrite lookup_empty. simpl.
  destruct (String.eqb (dxftype e) k); lia.
Qed.

Lemma run_skipped_bounds msp k :
  0 <= skipped_count (skipped (run_batch round t msp initial)) k
    <= Z.of_nat (count_type k msp).
Proof.
  induction msp as [|e msp IH].
  - unfold run_batch, skipped_count. simpl. rewrite lookup_empty. simpl.
    unfold count_type. simpl. lia.
  - rewrite run_cons, count_type_cons.
    destruct (convert_entity_effect round t e) as (eff & sig & _ & Hof & He).
    rewrite He. cbn [fst].
    destruct (run_parts msp (apply_effect eff initial)) as (_ & _ & ->).
    pose proof (effect_skipped_count e eff k Hof) as Hc.
    destruct (String.eqb (dxftype e) k); lia.
Qed.

(** [skipped] holds no count below 1. *)
Lemma run_skipped_positive msp s :
  map_Forall (fun _ c => 1 <= c) (skipped s) ->
  map_Forall (fun _ c => 1 <= c) (skipped (run_batch round t msp s)).
Proof.
  revert s. induction msp as [|e msp IH]; intros s Hs; [done|].
  rewrite run_cons. apply IH.
  destruct (convert_entity_effect round t e) as (eff & sig & _ & _ & He).
  rewrite He. cbn [fst]. destruct eff as [f| |k|]; simpl; try done.
  apply map_Forall_insert_2; [|done].
  destruct (skipped s !! k) as [c|] eqn:Hc; simpl; [|lia].
  apply Hs in Hc. lia.
Qed.

End Independence.

Ltac case_type_eq :=
  match goal with
  | |- context [String.eqb (dxftype ?e) ?k] =>
      let H := fresh "Hk" in
      destruct (String.eqb (dxftype e) k) eqn:H;
      [ apply String.eqb_eq in H; rewrite !H; simpl | simpl ]
  end.

Ltac case_read e :=
  match goal with
  | |- context [dxf_start (dxf e)] => destruct (dxf_start (dxf e))
  | |- context [dxf_end (dxf e)] => destruct (dxf_end (dxf e))
  | |- context [dxf_center (dxf e)] => destruct (dxf_center (dxf e))
  | |- context [dxf_location (dxf e)] => destruct (dxf_location (dxf e))
  | |- context [dxf_insert (dxf e)] => destruct (dxf_insert (dxf e))
  | |- context [dxf_defpoint (dxf e)] => destruct (dxf_defpoint (dxf e))
  | |- context [dxf_defpoint2 (dxf e)] => destruct (dxf_defpoint2 (dxf e))
  | |- context [negb (?a =? 0) || negb (?b =? 0)] =>
      destruct (negb (a =? 0) || negb (b =? 0))
  | |- context [in_utm_range ?x ?y] => destruct (in_utm_range x y)
  | |- context [dxf_radius (dxf e)] => destruct (dxf_radius (dxf e))
  | |- context [dxf_start_angle (dxf e)] =>
      destruct (dxf_start_angle (dxf e))
  | |- context [dxf_end_angle (dxf e)] => destruct (dxf_end_angle (dxf e))
  end.

Section FilteredCount.
Variable round : R -> Z -> R.
Variable t : Transformer.

Lemma convert_points_filtered_count points c props k s :
  filtered (try_except (convert_points round t points c props)
              (skipped_incr k) s).1
  = filtered s
    + (if (length (List.filter plausible points) <? 2)%nat then 1 else 0).
Proof.
  unfold try_except, convert_points.
  destruct (length (List.filter plausible points) <? 2)%nat eqn:Hlen;
    [reflexivity|].
  destruct (List.filter plausible points) as [|p kept]; [done|].
  destruct c as [[|]|]; exec; lia.
Qed.

Lemma polyline_reads e :
  is_polyline e = true ->
  convert_entity round t e
  = try_except
      (points ← attr (defining_points e);
       if (length points <? 2)%nat then continue
       else convert_points round t points (closed_flag e) (entity_props e))
      (skipped_incr (dxftype e)).
Proof.
  unfold is_polyline, defining_points, closed_flag, convert_entity, interpret.
  intros Hk.
  destruct (String.eqb (dxftype e) "LINE") eqn:Hline.
  { apply String.eqb_eq in Hline. rewrite Hline in Hk. done. }
  destruct (String.eqb (dxftype e) "LWPOLYLINE") eqn:Hlw.
  - unfold convert_lwpolyline, mbind, Exec_bind, attr.
    destruct (get_points e) as [raw|]; simpl; [|done].
    by rewrite length_map.
  - simpl in Hk. rewrite Hk.
    unfold convert_polyline, mbind, Exec_bind, attr.
    destruct (vertices e) as [vs|]; simpl; [|done].
    by destruct (mapM _ vs).
Qed.

Lemma polyline_filtered e s :
  is_polyline e = true ->
  filtered (convert_entity round t e s).1
  = filtered s + (if should_filter e then 1 else 0).
Proof.
  intros Hk. rewrite polyline_reads by done. unfold should_filter.
  rewrite Hk. destruct (defining_points e) as [points|]; [|exec; lia].
  destruct (length points <? 2)%nat eqn:Hlen.
  - assert ((2 <=? length points)%nat = false) as ->
      by (apply Nat.leb_gt; by apply Nat.ltb_lt).
    unfold try_except, mbind, Exec_bind, attr. rewrite Hlen. simpl. lia.
  - assert ((2 <=? length points)%nat = true) as ->
      by (apply Nat.leb_le; by apply Nat.ltb_ge).
    pose proof (convert_points_filtered_count points (closed_flag e)
                  (entity_props e) (dxftype e) s) as Hc.
    unfold try_except, mbind, Exec_bind, attr in *. rewrite Hlen.
    exact Hc.
Qed.

Lemma convert_entity_filtered e s :
  filtered (convert_entity round t e s).1
  = filtered s + (if should_filter e then 1 else 0).
Proof.
  destruct (is_polyline e) eqn:Hpoly; [by apply polyline_filtered|].
  revert Hpoly.
  unfold should_filter, defining_points, is_polyline, convert_entity,
    interpret.
  repeat case_type_eq; try discriminate; intros _.
  all: unfold convert_line, convert_circle, convert_arc, convert_point,
         convert_text, convert_mtext, convert_insert, convert_dimension,
         dimension_body.
  all: repeat first [ progress exec | case_read e ].
  all: try lia.
  all: repeat case_match; simplify_eq/=; lia.
Qed.

Lemma run_filtered msp s :
  filtered (run_batch round t msp s)
  = filtered s + Z.of_nat (length (List.filter should_filter msp)).
Proof.
  revert s. induction msp as [|e msp IH]; intros s.
  - unfold run_batch. simpl. lia.
  - rewrite run_cons, IH, convert_entity_filtered. simpl.
    destruct (should_filter e); simpl; lia.
Qed.

End FilteredCount.

(** ** The batch as a whole *)

Section BatchProperties.

Variable round : R -> Z -> R.
Variable from_crs : string -> string -> bool -> Transformer.

Lemma convert_dxf_run msp source_epsg :
  convert_dxf round from_crs msp source_epsg =
  let s := run_batch round (make_transformer from_crs source_epsg) msp
             initial in
  Some (features s, skipped s, filtered s).
Proof. apply convert_dxf_eq. Qed.

(** X5: an entity whose type is none of the ten the loop knows counts one
    more in [skipped] under its type and changes nothing else. *)
Theorem unsupported_type_is_counted (t : Transformer) (e : Entity)
    (s : State) :
  dxftype e ∉ supported_types ->
  convert_entity round t e s = (bump_skipped (dxftype e) s, Normal tt) /\
  geometry_type_of e = None.
Proof.
  intros Hk.
  assert (forall k, k ∈ supported_types ->
                    String.eqb (dxftype e) k = false) as Hne.
  { intros k Hin. apply String.eqb_neq. intros Heq. apply Hk.
    by rewrite Heq. }
  unfold convert_entity, try_except, interpret, geometry_type_of, is_polyline.
  rewrite !Hne by (unfold supported_types; set_solver).
  done.
Qed.

(** X6: the entities are converted independently of one another.  The
    conversion of a concatenation gives the features of the first part
    followed by those of the second, the sum of the two [filtered] counts,
    and under every type the sum of the two [skipped] counts. *)
Theorem convert_dxf_app (msp1 msp2 : list Entity) (source_epsg : Z) :
  exists fs1 sk1 n1 fs2 sk2 n2 sk,
    convert_dxf round from_crs msp1 source_epsg = Some (fs1, sk1, n1) /\
    convert_dxf round from_crs msp2 source_epsg = Some (fs2, sk2, n2) /\
    convert_dxf round from_crs (msp1 ++ msp2) source_epsg
      = Some (fs1 ++ fs2, sk, n1 + n2) /\
    forall k, skipped_count sk k = skipped_count sk1 k + skipped_count sk2 k.
Proof.
  rewrite !convert_dxf_run. simpl.
  set (t := make_transformer from_crs source_epsg).
  rewrite run_app.
  destruct (run_parts round t msp2 (run_batch round t msp1 initial))
    as (Hf & Hn & Hk).
  eexists _, _, _, _, _, _, _.
  split; [done|]. split; [done|]. split; [by rewrite Hf, Hn|]. done.
Qed.

(** X7: no entity is counted twice.  The number of features, the
    [filtered] count and the sum of the [skipped] counts add up to at most
    the number of entities; what is missing are the entities dropped without
    a trace. *)
Theorem convert_dxf_counts_at_most_once (msp : list Entity) (source_epsg : Z) :
  exists fs sk n,
    convert_dxf round from_crs msp source_epsg = Some (fs, sk, n) /\
    0 <= n /\ 0 <= skipped_total sk /\
    Z.of_nat (length fs) + n + skipped_total sk <= Z.of_nat (length msp).
Proof.
  rewrite convert_dxf_run. simpl.
  set (t := make_transformer from_crs source_epsg).
  eexists _, _, _. split; [done|].
  pose proof (run_conservation round t msp initial) as Hc.
  pose proof (run_filtered round t msp initial) as Hn.
  pose proof (run_skipped_positive round t msp initial) as Hp.
  change (skipped_total (skipped initial)) with 0 in Hc.
  simpl in Hc, Hn. split; [lia|]. split; [|lia].
  assert (map_Forall (fun _ c => 1 <= c)
            (skipped (run_batch round t msp initial))) as Hpos
    by (apply Hp; apply map_Forall_empty).
  revert Hpos. unfold skipped_total.
  generalize (skipped (run_batch round t msp initial)). intros m.
  induction m as [|k c m Hk Hfold IH] using map_first_key_ind.
  - intros _. by rewrite map_fold_empty.
  - intros Hall. rewrite map_fold_insert_first_key by done.
    apply map_Forall_insert in Hall as [Hc1 Hm]; [|done].
    specialize (IH Hm). lia.
Qed.

(** X8: under every type, the [skipped] count is at most the number of
    entities of that type; a type is a key of [skipped] only with a count of
    at least 1. *)
Theorem skipped_counts_are_bounded (msp : list Entity) (source_epsg : Z) :
  exists fs sk n,
    convert_dxf round from_crs msp source_epsg = Some (fs, sk, n) /\
    (forall k, 0 <= skipped_count sk k <= Z.of_nat (count_type k msp)) /\
    map_Forall (fun _ c => 1 <= c) sk.
Proof.
  rewrite convert_dxf_run. simpl. eexists _, _, _. split; [done|]. split.
  - intros k. apply run_skipped_bounds.
  - apply run_skipped_positive. apply map_Forall_empty.
Qed.

(** X9: every feature comes from an entity of the input: the features are,
    in the order of the input, the features of a sub-list of the entities (at
    most one feature per entity); each has the geometry type of its entity's
    type, and exactly the properties [layer] (["0"] when unset), [type],
    [color] (as [entity_color] gives it), [text] (TEXT and MTEXT) and
    [block] (INSERT with a name). *)
Theorem features_come_from_entities (msp : list Entity) (source_epsg : Z) :
  exists fs sk n es,
    convert_dxf round from_crs msp source_epsg = Some (fs, sk, n) /\
    sublist es msp /\
    Forall2 feature_of es fs.
Proof.
  rewrite convert_dxf_run. simpl.
  destruct (run_provenance round (make_transformer from_crs source_epsg) msp)
    as (es & Hsub & Hall).
  by eexists _, _, _, es.
Qed.

(** X10: [filtered] is exactly the number of entities whose defining points
    can be read and fail the check: one implausible point for an entity other
    than a polyline, fewer than 2 plausible vertices out of at least 2 for a
    polyline. *)
Theorem filtered_counts_the_implausible (msp : list Entity) (source_epsg : Z) :
  exists fs sk n,
    convert_dxf round from_crs msp source_epsg = Some (fs, sk, n) /\
    n = Z.of_nat (length (List.filter should_filter msp)).
Proof.
  rewrite convert_dxf_run. simpl. eexists _, _, _. split; [done|].
  by rewrite run_filtered.
Qed.

End BatchProperties.

Lemma unsupported_type_is_counted_witness :
  convert_entity Samples.exact_round
    (Samples.plain_crs "EPSG:32638" "EPSG:4326" true) Samples.hatch initial
  = (bump_skipped "HATCH" initial, Normal tt) /\
  geometry_type_of Samples.hatch = None.
Proof.
  apply (unsupported_type_is_counted Samples.exact_round
           (Samples.plain_crs "EPSG:32638" "EPSG:4326" true)
           Samples.hatch initial).
  unfold supported_types. simpl.
  rewrite !elem_of_cons, elem_of_nil. intros H.
  repeat (destruct H as [H|H]; [discriminate H|]). exact H.
Defined.


(** ** The bounds of the features *)

Lemma append_positions_eq coords lngs lats :
  append_positions coords (lngs, lats)
  = (lngs ++ map fst coords, lats ++ map snd coords).
Proof.
  revert lngs lats. unfold append_positions.
  induction coords as [|c coords IH]; intros lngs lats; simpl.
  - by rewrite !app_nil_r.
  - rewrite IH. by rewrite <- !app_assoc.
Qed.

Lemma append_rings_eq rings lngs lats :
  fold_left (fun acc ring => append_positions ring acc) rings (lngs, lats)
  = (lngs ++ map fst (concat rings), lats ++ map snd (concat rings)).
Proof.
  revert lngs lats. induction rings as [|r rings IH]; intros lngs lats; simpl.
  - by rewrite !app_nil_r.
  - rewrite append_positions_eq, IH, !map_app. by rewrite <- !app_assoc.
Qed.

Lemma read_feature_eq lngs lats feat r :
  read_feature (lngs, lats) feat = Some r ->
  r = (lngs ++ map fst (read_positions feat),
       lats ++ map snd (read_positions feat)).
Proof.
  unfold read_feature, read_positions, known_geometry. simpl.
  destruct (String.eqb (g_type (geometry feat)) "Point"); simpl.
  { destruct (g_coordinates (geometry feat)); intros [= <-]; reflexivity. }
  destruct (String.eqb (g_type (geometry feat)) "LineString"); simpl.
  { destruct (g_coordinates (geometry feat)) as [|coords|[|]];
      intros [= <-]; rewrite ?append_positions_eq, ?app_nil_r; reflexivity. }
  destruct (String.eqb (g_type (geometry feat)) "Polygon"); simpl.
  { destruct (g_coordinates (geometry feat)) as [|[|]|rings];
      intros [= <-]; rewrite ?append_rings_eq, ?app_nil_r; reflexivity. }
  intros [= <-]. by rewrite !app_nil_r.
Qed.

Lemma for_in_read_feature fs lngs lats r :
  for_in fs read_feature (lngs, lats) = Some r ->
  r = (lngs ++ map fst (concat (map read_positions fs)),
       lats ++ map snd (concat (map read_positions fs))).
Proof.
  revert lngs lats. induction fs as [|f fs IH]; intros lngs lats; simpl.
  - intros [= <-]. by rewrite !app_nil_r.
  - destruct (read_feature (lngs, lats) f) as [[lngs' lats']|] eqn:Hf;
      simpl; [|done].
    apply read_feature_eq in Hf as [= -> ->]. intros Hr.
    apply IH in Hr as ->. by rewrite !map_app, <- !app_assoc.
Qed.

Lemma lnglat_lists_eq fs lngs lats :
  lnglat_lists fs = Some (lngs, lats) ->
  lngs = map fst (concat (map read_positions fs)) /\
  lats = map snd (concat (map read_positions fs)).
Proof. intros H. by apply for_in_read_feature in H as [= -> ->]. Qed.






Lemma emitted_read_feature f acc :
  emitted f ->
  read_positions f <> [] /\ exists r, read_feature acc f = Some r.
Proof.
  destruct acc as [lngs lats].
  intros [c props|coords props Hlen|ring first props Hlen _ _];
    unfold read_positions, read_feature, known_geometry; simpl.
  - split; [done|]. by eexists.
  - split; [|by eexists]. intros ->. simpl in Hlen. lia.
  - split; [|by eexists]. rewrite app_nil_r. intros ->. simpl in Hlen. lia.
Qed.

Lemma lnglat_lists_emitted fs :
  Forall emitted fs -> exists lngs lats, lnglat_lists fs = Some (lngs, lats).
Proof.
  unfold lnglat_lists. generalize (([], []) : list R * list R).
  induction fs as [|f fs IH]; intros acc Hall; simpl.
  - destruct acc. by eexists _, _.
  - apply Forall_cons in Hall as [Hf Hfs].
    destruct (emitted_read_feature f acc Hf) as [_ [r ->]]. simpl.
    by apply IH.
Qed.

Lemma compute_bounds_emitted fs :
  Forall emitted fs ->
  exists r, compute_bounds fs = Some r /\ (r = None <-> fs = []).
Proof.
  intros Hall.
  destruct (lnglat_lists_emitted fs Hall) as (lngs & lats & Hl).
  pose proof (lnglat_lists_eq _ _ _ Hl) as [Hlngs Hlats].
  unfold compute_bounds. rewrite Hl. simpl.
  destruct fs as [|f fs].
  - subst lngs. by exists None.
  - apply Forall_cons in Hall as [Hf _].
    destruct (emitted_read_feature f ([], []) Hf) as [Hne _].
    simpl in Hlngs, Hlats.
    destruct (read_positions f) as [|p ps]; [done|]. simpl in *.
    subst lngs lats. simpl.
    eexists. split; [done|]. split; done.
Qed.

Section Bounds.

Variable round : R -> Z -> R.
Variable from_crs : string -> string -> bool -> Transformer.

(** X11: on the features of a conversion [compute_bounds] never raises, and
    it gives bounds and a centre unless there is no feature at all: the
    answer of an upload that has features always carries its bounds. *)
Theorem bounds_of_a_conversion (msp : list Entity) (source_epsg : Z) :
  exists fs sk n r,
    convert_dxf round from_crs msp source_epsg = Some (fs, sk, n) /\
    compute_bounds fs = Some r /\
    (r = None <-> fs = []).
Proof.
  destruct (convert_dxf round from_crs msp source_epsg)
    as [[[fs sk] n]|] eqn:Hrun;
    [|by rewrite convert_dxf_eq in Hrun].
  pose proof (convert_dxf_emitted round from_crs _ _ _ _ _ Hrun) as Hall.
  destruct (compute_bounds_emitted fs Hall) as (r & Hb & Hr).
  by exists fs, sk, n, r.
Qed.

End Bounds.








(** ** Slugs *)

Lemma slug_char_not_dash c : is_slug_char c = true -> is_dash c = false.
Proof.
  intros Hc. unfold is_dash. destruct (Ascii.eqb c "-") eqn:Hd; [|done].
  apply Ascii.eqb_eq in Hd. subst c. discriminate Hc.
Qed.

Lemma rstrip_dash_cons c s :
  is_dash c = false -> rstrip_dash (String c s) = String c (rstrip_dash s).
Proof. intros Hc. simpl. rewrite Hc. by destruct (rstrip_dash s). Qed.

Lemma rstrip_dash_dash s :
  rstrip_dash (String "-" s)
  = match rstrip_dash s with
    | EmptyString => EmptyString
    | r => String "-" r
    end.
Proof. reflexivity. Qed.

Lemma sub_runs_alnum b c s :
  is_slug_char c = true -> sub_runs b (String c s) = String c (sub_runs false s).
Proof. intros Hc. simpl. by rewrite Hc. Qed.

Lemma sub_runs_skip c s :
  is_slug_char c = false -> sub_runs true (String c s) = sub_runs true s.
Proof. intros Hc. simpl. by rewrite Hc. Qed.

Lemma sub_runs_dash c s :
  is_slug_char c = false ->
  sub_runs false (String c s) = String "-" (sub_runs true s).
Proof. intros Hc. simpl. by rewrite Hc. Qed.

Lemma alnum_words_skip c s :
  is_slug_char c = false -> alnum_words (String c s) = alnum_words s.
Proof. intros Hc. simpl. by rewrite Hc. Qed.

Lemma alnum_words_last c :
  is_slug_char c = true ->
  alnum_words (String c EmptyString) = [String c EmptyString].
Proof. intros Hc. simpl. by rewrite Hc. Qed.

Lemma alnum_words_extend c c' s :
  is_slug_char c = true -> is_slug_char c' = true ->
  alnum_words (String c (String c' s))
  = match alnum_words (String c' s) with
    | w :: ws => String c w :: ws
    | [] => [String c EmptyString]
    end.
Proof.
  intros Hc Hc'.
  change (alnum_words (String c (String c' s)))
    with (if is_slug_char c then
            if is_slug_char c' then
              match alnum_words (String c' s) with
              | w :: ws => String c w :: ws
              | [] => [String c EmptyString]
              end
            else String c EmptyString :: alnum_words (String c' s)
          else alnum_words (String c' s)).
  by rewrite Hc, Hc'.
Qed.

Lemma alnum_words_new c c' s :
  is_slug_char c = true -> is_slug_char c' = false ->
  alnum_words (String c (String c' s))
  = String c EmptyString :: alnum_words (String c' s).
Proof.
  intros Hc Hc'.
  change (alnum_words (String c (String c' s)))
    with (if is_slug_char c then
            if is_slug_char c' then
              match alnum_words (String c' s) with
              | w :: ws => String c w :: ws
              | [] => [String c EmptyString]
              end
            else String c EmptyString :: alnum_words (String c' s)
          else alnum_words (String c' s)).
  by rewrite Hc, Hc'.
Qed.

(** After a run the substitution never begins with a dash. *)
Lemma lstrip_sub_runs s : lstrip_dash (sub_runs true s) = sub_runs true s.
Proof.
  induction s as [|c s IH]; [done|].
  destruct (is_slug_char c) eqn:Hc.
  - rewrite sub_runs_alnum by done. simpl. by rewrite slug_char_not_dash.
  - by rewrite sub_runs_skip.
Qed.

Lemma alnum_words_are_words s : Forall is_word (alnum_words s).
Proof.
  induction s as [|c s IH]; [constructor|].
  destruct (is_slug_char c) eqn:Hc; [|by rewrite alnum_words_skip].
  assert (is_word (String c EmptyString)) as Hw.
  { split; [done|]. simpl. by repeat constructor. }
  destruct s as [|c' s'].
  { rewrite alnum_words_last by done. by repeat constructor. }
  destruct (is_slug_char c') eqn:Hc'.
  - rewrite alnum_words_extend by done.
    destruct (alnum_words (String c' s')) as [|w ws]; [by repeat constructor|].
    apply Forall_cons in IH as [[Hne Hall] Hws].
    constructor; [|done]. split; [done|]. simpl. by constructor.
  - rewrite alnum_words_new by done. by constructor.
Qed.

Lemma alnum_words_head c s :
  is_slug_char c = true -> alnum_words (String c s) <> [].
Proof.
  intros Hc. destruct s as [|c' s']; [by rewrite alnum_words_last|].
  destruct (is_slug_char c') eqn:Hc'.
  - rewrite alnum_words_extend by done.
    by destruct (alnum_words (String c' s')).
  - by rewrite alnum_words_new.
Qed.

Lemma concat_words_nonempty w ws :
  w <> EmptyString -> String.concat "-" (w :: ws) <> EmptyString.
Proof.
  intros Hw. destruct w as [|c w]; [done|]. simpl. by destruct ws.
Qed.

Lemma concat_words_cons c w ws :
  String.concat "-" (String c w :: ws)
  = String c (String.concat "-" (w :: ws)).
Proof. simpl. by destruct ws. Qed.

Lemma concat_words_new c ws :
  Forall is_word ws ->
  String.concat "-" (String c EmptyString :: ws)
  = String c match String.concat "-" ws with
             | EmptyString => EmptyString
             | r => String "-" r
             end.
Proof.
  intros Hws. destruct ws as [|w ws]; [done|].
  apply Forall_cons in Hws as [[Hne _] _].
  pose proof (concat_words_nonempty w ws Hne) as Hj.
  change (String.concat "-" (String c EmptyString :: w :: ws))
    with (String c (String "-" (String.concat "-" (w :: ws)))).
  by destruct (String.concat "-" (w :: ws)).
Qed.

(** What is left of the substitution once the dashes at its ends are gone:
    the words, joined by single dashes. *)
Lemma strip_sub_runs s :
  rstrip_dash (sub_runs true s) = String.concat "-" (alnum_words s) /\
  strip_dash (sub_runs false s) = String.concat "-" (alnum_words s).
Proof.
  induction s as [|c s [IH1 IH2]]; [done|].
  destruct (is_slug_char c) eqn:Hc.
  - assert (rstrip_dash (String c (sub_runs false s))
            = String.concat "-" (alnum_words (String c s))) as H.
    { rewrite rstrip_dash_cons by (by apply slug_char_not_dash).
      destruct s as [|c' s']; [by rewrite alnum_words_last|].
      destruct (is_slug_char c') eqn:Hc'.
      - rewrite alnum_words_extend by done.
        pose proof (alnum_words_head c' s' Hc') as Hne.
        unfold strip_dash in IH2. rewrite sub_runs_alnum in IH2 by done.
        simpl lstrip_dash in IH2.
        rewrite (slug_char_not_dash c' Hc') in IH2.
        rewrite sub_runs_alnum by done. rewrite IH2.
        destruct (alnum_words (String c' s')) as [|w ws]; [done|].
        by rewrite concat_words_cons.
      - rewrite alnum_words_new by done.
        rewrite concat_words_new by apply alnum_words_are_words.
        rewrite sub_runs_skip in IH1 by done.
        rewrite sub_runs_dash by done.
        by rewrite rstrip_dash_dash, IH1. }
    split.
    + by rewrite sub_runs_alnum.
    + unfold strip_dash. rewrite sub_runs_alnum by done. simpl lstrip_dash.
      by rewrite (slug_char_not_dash c Hc).
  - rewrite alnum_words_skip by done. split.
    + by rewrite sub_runs_skip.
    + unfold strip_dash. rewrite sub_runs_dash by done. simpl lstrip_dash.
      by rewrite lstrip_sub_runs.
Qed.

Lemma chars_app (a b : string) :
  String.list_ascii_of_string (String.append a b)
  = String.list_ascii_of_string a ++ String.list_ascii_of_string b.
Proof. induction a as [|c a IH]; simpl; [done|]. by rewrite IH. Qed.

Lemma sub_runs_chars b s :
  Forall (fun c => is_slug_char c = true \/ c = "-"%char)
         (String.list_ascii_of_string (sub_runs b s)).
Proof.
  revert b. induction s as [|c s IH]; intros b; simpl; [constructor|].
  destruct (is_slug_char c) eqn:Hc; [by constructor; [left|]|].
  destruct b; [done|]. by constructor; [right|].
Qed.

Lemma lstrip_dash_chars (P : ascii -> Prop) s :
  Forall P (String.list_ascii_of_string s) ->
  Forall P (String.list_ascii_of_string (lstrip_dash s)).
Proof.
  induction s as [|c s IH]; simpl; [done|]. intros Hall.
  destruct (is_dash c); [|done]. apply IH. by apply Forall_cons in Hall as [_ ?].
Qed.

Lemma rstrip_dash_chars (P : ascii -> Prop) s :
  Forall P (String.list_ascii_of_string s) ->
  Forall P (String.list_ascii_of_string (rstrip_dash s)).
Proof.
  induction s as [|c s IH]; simpl; [done|]. intros Hall.
  apply Forall_cons in Hall as [Hc Hs]. specialize (IH Hs).
  destruct (rstrip_dash s) as [|c' r].
  - destruct (is_dash c); simpl; by repeat constructor.
  - simpl. by constructor.
Qed.

Lemma word_ends w c :
  is_word w ->
  head (String.list_ascii_of_string w) = Some c
  \/ last (String.list_ascii_of_string w) = Some c ->
  is_slug_char c = true.
Proof.
  intros [_ Hall] Hc. rewrite Forall_forall in Hall. apply Hall.
  destruct Hc as [Hc|Hc].
  - by apply head_Some_elem_of.
  - by apply last_Some_elem_of.
Qed.

Lemma concat_words_ends ws c :
  Forall is_word ws ->
  head (String.list_ascii_of_string (String.concat "-" ws)) = Some c
  \/ last (String.list_ascii_of_string (String.concat "-" ws)) = Some c ->
  is_slug_char c = true.
Proof.
  induction ws as [|w ws IH]; intros Hall Hc.
  { simpl in Hc. by destruct Hc. }
  apply Forall_cons in Hall as [Hw Hws].
  destruct ws as [|w' ws]; [by apply (word_ends w)|].
  change (String.concat "-" (w :: w' :: ws))
    with (String.append w
            (String.append "-" (String.concat "-" (w' :: ws)))) in Hc.
  rewrite !chars_app in Hc.
  pose proof Hw as [Hne _]. destruct w as [|d w]; [done|].
  destruct Hc as [Hc|Hc].
  - apply (word_ends (String d w)); [done|]. left. exact Hc.
  - apply IH; [done|]. right.
    pose proof (concat_words_nonempty w' ws) as Hj.
    apply Forall_cons in Hws as [[Hne' _] _]. specialize (Hj Hne').
    destruct (String.concat "-" (w' :: ws)) as [|d' r]; [done|].
    rewrite app_assoc in Hc.
    change (String.list_ascii_of_string (String d' r))
      with (d' :: String.list_ascii_of_string r) in Hc |- *.
    by rewrite last_app_cons in Hc.
Qed.

Lemma alnum_words_nil s :
  alnum_words s = [] <->
  Forall (fun c => is_slug_char c = false) (String.list_ascii_of_string s).
Proof.
  induction s as [|c s IH]; [by split; [constructor|]|].
  destruct (is_slug_char c) eqn:Hc.
  - split.
    + intros Hnil. by apply alnum_words_head in Hnil.
    + simpl. intros Hall. apply Forall_cons in Hall as [Hc' _]. congruence.
  - rewrite alnum_words_skip by done. simpl. rewrite Forall_cons. tauto.
Qed.

Section Slugs.

Variable stem : string -> string.
Variable lower : string -> string.

(** X14: the slug of a name is made of the words of the lowered stem (its
    maximal runs of characters of [[a-z0-9]]), in their order, joined by
    single dashes. *)
Theorem slugify_joins_the_words (name : string) :
  slugify stem lower name
    = String.concat "-" (alnum_words (lower (stem name))) /\
  Forall is_word (alnum_words (lower (stem name))).
Proof.
  split; [apply strip_sub_runs|apply alnum_words_are_words].
Qed.

(** X15: a slug holds only lower-case letters, digits and dashes (so no
    slash, no dot, no space, nothing outside ASCII), and it neither begins
    nor ends with a dash. *)
Theorem slugify_is_a_safe_name (name : string) :
  Forall (fun c => is_slug_char c = true \/ c = "-"%char)
         (String.list_ascii_of_string (slugify stem lower name)) /\
  (forall c,
      head (String.list_ascii_of_string (slugify stem lower name)) = Some c
      \/ last (String.list_ascii_of_string (slugify stem lower name)) = Some c
      -> is_slug_char c = true).
Proof.
  split.
  - unfold slugify, strip_dash, re_sub_non_alnum.
    apply rstrip_dash_chars, lstrip_dash_chars, sub_runs_chars.
  - intros c. unfold slugify, re_sub_non_alnum.
    rewrite (proj2 (strip_sub_runs _)).
    apply concat_words_ends, alnum_words_are_words.
Qed.

(** X16: the slug is empty exactly when the lowered stem holds no character
    of [[a-z0-9]]; the overlay of such an upload is the file
    [.geojson]. *)
Theorem slugify_empty_iff (name : string) :
  slugify stem lower name = EmptyString <->
  Forall (fun c => is_slug_char c = false)
         (String.list_ascii_of_string (lower (stem name))).
Proof.
  rewrite <- alnum_words_nil. unfold slugify, re_sub_non_alnum.
  rewrite (proj2 (strip_sub_runs _)).
  pose proof (alnum_words_are_words (lower (stem name))) as Hall.
  destruct (alnum_words (lower (stem name))) as [|w ws]; [done|].
  apply Forall_cons in Hall as [[Hne _] _].
  split; [|done]. intros Hj. by apply concat_words_nonempty in Hj.
Qed.

End Slugs.

(** ** Entities whose points are all plausible *)

Ltac case_point e :=
  match goal with
  | |- context [dxf_start (dxf e)] => destruct (dxf_start (dxf e))
  | |- context [dxf_end (dxf e)] => destruct (dxf_end (dxf e))
  | |- context [dxf_location (dxf e)] => destruct (dxf_location (dxf e))
  | |- context [dxf_insert (dxf e)] => destruct (dxf_insert (dxf e))
  | |- context [dxf_defpoint (dxf e)] => destruct (dxf_defpoint (dxf e))
  | |- context [dxf_defpoint2 (dxf e)] => destruct (dxf_defpoint2 (dxf e))
  | |- context [negb (?a =? 0) || negb (?b =? 0)] =>
      destruct (negb (a =? 0) || negb (b =? 0))
  end.

Section Emission.

Variable round : R -> Z -> R.
Variable t : Transformer.

Lemma simple_entity_positions e s points :
  is_simple e = true ->
  defining_points e = Some points ->
  Forall (fun p => plausible p = true) points ->
  exists f,
    convert_entity round t e s = (push_feature f s, Normal tt) /\
    positions (g_coordinates (geometry f))
    = map (fun p => reproject round t p.1 p.2) points.
Proof.
  intros Hk Hpoints Hall. revert Hk Hpoints.
  unfold is_simple, defining_points, convert_entity, interpret.
  repeat case_type_eq; try discriminate; intros _.
  all: unfold convert_line, convert_point, convert_text, convert_mtext,
         convert_insert, convert_dimension, dimension_body.
  all: unfold mbind, option_bind.
  all: repeat case_point e.
  all: try discriminate.
  all: intros [= <-].
  all: repeat match goal with
       | H : Forall _ (_ :: _) |- _ => apply Forall_cons in H as [? H]
       end.
  all: unfold plausible, to_wcs in *; simpl in *.
  all: exec.
  all: repeat match goal with
       | H : in_utm_range _ _ = true |- _ => rewrite H; clear H
       end.
  all: exec.
  all: eexists; split; reflexivity.
Qed.

Lemma push_feature_effect eff f s :
  apply_effect eff s = push_feature f s -> eff = EmitFeature f.
Proof.
  intros H. apply (f_equal features) in H.
  destruct eff as [f'| |k|]; simpl in H.
  - apply app_inv_head in H. congruence.
  - apply (f_equal length) in H. rewrite length_app in H. simpl in H. lia.
  - apply (f_equal length) in H. rewrite length_app in H. simpl in H. lia.
  - apply (f_equal length) in H. rewrite length_app in H. simpl in H. lia.
Qed.

(** X17: a LINE, POINT, TEXT, MTEXT, INSERT or DIMENSION whose defining
    points can be read and are all plausible appends exactly one feature and
    touches no counter; the positions of the feature are the reprojections
    of the defining points, in their order, and its type and properties are
    those of the entity. *)
Theorem plausible_points_are_emitted (e : Entity) (s : State)
    (points : list (R * R)) :
  is_simple e = true ->
  defining_points e = Some points ->
  Forall (fun p => plausible p = true) points ->
  exists f,
    convert_entity round t e s = (push_feature f s, Normal tt) /\
    positions (g_coordinates (geometry f))
    = map (fun p => reproject round t p.1 p.2) points /\
    feature_of e f.
Proof.
  intros Hk Hpoints Hall.
  destruct (simple_entity_positions e s points Hk Hpoints Hall)
    as (f & Hrun & Hpos).
  exists f. split; [done|]. split; [done|].
  destruct (convert_entity_effect round t e) as (eff & sig & _ & Hof & He).
  rewrite He in Hrun. injection Hrun as Hs _.
  apply push_feature_effect in Hs. by subst eff.
Qed.

End Emission.

Lemma plausible_points_are_emitted_witness :
  exists f,
    convert_entity Samples.exact_round
      (Samples.plain_crs "EPSG:32638" "EPSG:4326" true)
      MoreSamples.site_point initial = (push_feature f initial, Normal tt) /\
    positions (g_coordinates (geometry f)) = [(400000, 3700000)%R] /\
    feature_of MoreSamples.site_point f.
Proof.
  apply (plausible_points_are_emitted Samples.exact_round
           (Samples.plain_crs "EPSG:32638" "EPSG:4326" true)
           MoreSamples.site_point initial [(400000, 3700000)%R]).
  - reflexivity.
  - reflexivity.
  - constructor; [|constructor].
    apply in_utm_range_inside; simpl; lra.
Defined.

(** ** Uploads *)

Section Uploads.

Variable stem : string -> string.
Variable lower : string -> string.
Variable round : R -> Z -> R.
Variable from_crs : string -> string -> bool -> Transformer.


(** X19: what an upload wrote can be served and deleted.  After an upload
    that was answered with a result, [serve_overlay] of the file it names
    gives back the features of the conversion, [delete_overlay] of the name
    it gives removes that file and nothing else, and a second
    [delete_overlay] of that name is answered with status 404 and changes
    nothing. *)
Theorem upload_then_serve_and_delete
    (overlays overlays' : gmap string FeatureCollection)
    (filename : string) (msp : list Entity) (epsg : Z) (name file : string)
    (count : Z) (bounds : option (R * R * R * R)) (center : option (R * R))
    (sk : gmap string Z) (n : Z) :
  upload_dxf stem lower round from_crs overlays filename msp epsg
  = (overlays', Some (UploadResult name file count bounds center sk n)) ->
  exists fs,
    convert_dxf round from_crs msp epsg = Some (fs, sk, n) /\
    count = Z.of_nat (length fs) /\
    serve_overlay overlays' file
    = FileResponse {| fc_type := "FeatureCollection"; fc_features := fs |} /\
    delete_overlay overlays' name = (delete file overlays, Deleted name) /\
    delete_overlay (delete file overlays) name
    = (delete file overlays, JSONResponse "not found" 404).
Proof.
  unfold upload_dxf.
  destruct (convert_dxf round from_crs msp epsg) as [[[fs sk'] n']|];
    [|done].
  destruct fs as [|f fs]; [done|].
  destruct (compute_bounds (f :: fs)) as [r|]; [|done].
  intros [= <- <- <- <- _ _ <- <-].
  exists (f :: fs). split; [done|]. split; [done|].
  unfold serve_overlay, delete_overlay.
  rewrite lookup_insert_eq, lookup_delete_eq, delete_insert_eq. done.
Qed.

End Uploads.

Lemma site_point_run :
  convert_dxf Samples.exact_round Samples.plain_crs
    [MoreSamples.site_point] 32638
  = Some ([MoreSamples.site_feature], ∅, 0).
Proof.
  unfold MoreSamples.site_point, MoreSamples.site_feature, Samples.bare.
  run. reflexivity.
Defined.

Lemma upload_then_serve_and_delete_witness :
  serve_overlay
    (<["survey.geojson" :=
         {| fc_type := "FeatureCollection";
            fc_features := [MoreSamples.site_feature] |}]> ∅)
    "survey.geojson"
  = FileResponse {| fc_type := "FeatureCollection";
                    fc_features := [MoreSamples.site_feature] |} /\
  delete_overlay
    (<["survey.geojson" :=
         {| fc_type := "FeatureCollection";
            fc_features := [MoreSamples.site_feature] |}]> ∅)
    "survey"
  = (delete "survey.geojson" ∅, Deleted "survey").
Proof.
  destruct (upload_then_serve_and_delete
              MoreSamples.plain_stem MoreSamples.plain_lower
              Samples.exact_round Samples.plain_crs
              ∅
              (<["survey.geojson" :=
                   {| fc_type := "FeatureCollection";
                      fc_features := [MoreSamples.site_feature] |}]> ∅)
              "survey" [MoreSamples.site_point] 32638
              "survey" "survey.geojson" 1
              (Some (400000, 3700000, 400000, 3700000)%R)
              (Some ((400000 + 400000) / 2, (3700000 + 3700000) / 2)%R)
              ∅ 0)
    as (fs & Hrun & _ & Hserve & Hdelete & _).
  - unfold upload_dxf. rewrite site_point_run. reflexivity.
  - rewrite site_point_run in Hrun. injection Hrun as <-.
    split; [exact Hserve | exact Hdelete].
Defined.
